(** * rec-transport-backend: ride lifecycle, driver status and odometer ledger

    A shallow embedding of the FastAPI handlers of [backend/main.py] over the
    tables of [backend/database.py].

    Modelling conventions.
    - A table is the list of its rows in insertion order (SQLite scans a table
      without [ORDER BY] in rowid order, so [query(...).filter(...).first()]
      is the first row of the list that satisfies the filter: [list_find]).
    - An ORM object fetched by a query is the row at the index [list_find]
      returned; assigning to its attributes and committing is [alter] at that
      index.
    - [uuid.uuid4()] and [datetime.utcnow()] are inputs of the handler
      ([new_id], [now]).  Time stamps are integers (microseconds).
    - [db.add] of a row whose primary key is already in the table makes
      [db.commit()] raise [IntegrityError]; nothing is written then.
    - A handler either commits a new database or raises: [result DB].
    - String columns stay strings; integers are [Z] (Python integers).  An
      Integer column holds 64 bits: binding a Python integer outside that
      range makes [db.commit()] raise [OverflowError] before any row is
      written, so nothing is written then either.
    - Float values are IEEE doubles ([float]).
    - Columns that none of the handlers below reads or writes (vehicle data,
      ratings, coordinates, addresses, insertion-time defaults such as
      [requested_at] and the kilometer entry's [date]) are left out. *)

From stdpp Require Import base tactics option list strings numbers relations
  gmap pretty.
From Stdlib Require Import Floats.PrimFloat Floats.SpecFloat Floats.FloatOps.

Local Open Scope string_scope.
Local Open Scope list_scope.
Local Open Scope Z_scope.

(** ** Errors and results *)

Inductive error : Type :=
  | HTTPException (status_code : Z) (detail : string)
  | IntegrityError
  | OverflowError
  | InterfaceError.

Inductive result (A : Type) : Type :=
  | Ok (a : A)
  | Err (e : error).
Arguments Ok {A} a.
Arguments Err {A} e.

Definition is_Ok {A} (r : result A) : bool :=
  match r with Ok _ => true | Err _ => false end.

(** ** schemas.py: the enumerations validated on input *)

Inductive RideStatus : Type :=
  | requested | assigned | accepted | picking_up
  | in_progress | completed | cancelled.

Definition RideStatus_value (s : RideStatus) : string :=
  match s with
  | requested => "requested"
  | assigned => "assigned"
  | accepted => "accepted"
  | picking_up => "picking_up"
  | in_progress => "in_progress"
  | completed => "completed"
  | cancelled => "cancelled"
  end.

Inductive LeaveStatus : Type := pending | approved | rejected.

Definition LeaveStatus_value (s : LeaveStatus) : string :=
  match s with
  | pending => "pending"
  | approved => "approved"
  | rejected => "rejected"
  end.

(** ** database.py: the rows *)

Module Driver.
Record t : Type := mk {
  id : string;
  user_id : string;
  total_rides : Z;
  is_online : bool;
  current_km_reading : Z;
  last_status_change : Z
}.
Definition set_is_online (v : bool) (now : Z) (d : t) : t :=
  mk (id d) (user_id d) (total_rides d) v (current_km_reading d) now.
Definition set_current_km_reading (v : Z) (d : t) : t :=
  mk (id d) (user_id d) (total_rides d) (is_online d) v (last_status_change d).
Definition incr_total_rides (d : t) : t :=
  mk (id d) (user_id d) (total_rides d + 1) (is_online d)
     (current_km_reading d) (last_status_change d).
End Driver.

Module Ride.
Record t : Type := mk {
  id : string;
  passenger_id : string;
  driver_id : option string;
  status : string;
  assigned_at : option Z;
  accepted_at : option Z;
  picked_up_at : option Z;
  completed_at : option Z;
  cancelled_at : option Z;
  distance : Z;
  estimated_duration : Z;
  actual_duration : option Z
}.
Definition set_status (v : string) (r : t) : t :=
  mk (id r) (passenger_id r) (driver_id r) v (assigned_at r) (accepted_at r)
     (picked_up_at r) (completed_at r) (cancelled_at r) (distance r)
     (estimated_duration r) (actual_duration r).
Definition set_driver_id (v : option string) (r : t) : t :=
  mk (id r) (passenger_id r) v (status r) (assigned_at r) (accepted_at r)
     (picked_up_at r) (completed_at r) (cancelled_at r) (distance r)
     (estimated_duration r) (actual_duration r).
Definition set_assigned_at (v : option Z) (r : t) : t :=
  mk (id r) (passenger_id r) (driver_id r) (status r) v (accepted_at r)
     (picked_up_at r) (completed_at r) (cancelled_at r) (distance r)
     (estimated_duration r) (actual_duration r).
Definition set_accepted_at (v : option Z) (r : t) : t :=
  mk (id r) (passenger_id r) (driver_id r) (status r) (assigned_at r) v
     (picked_up_at r) (completed_at r) (cancelled_at r) (distance r)
     (estimated_duration r) (actual_duration r).
Definition set_picked_up_at (v : option Z) (r : t) : t :=
  mk (id r) (passenger_id r) (driver_id r) (status r) (assigned_at r)
     (accepted_at r) v (completed_at r) (cancelled_at r) (distance r)
     (estimated_duration r) (actual_duration r).
Definition set_completed_at (v : option Z) (r : t) : t :=
  mk (id r) (passenger_id r) (driver_id r) (status r) (assigned_at r)
     (accepted_at r) (picked_up_at r) v (cancelled_at r) (distance r)
     (estimated_duration r) (actual_duration r).
Definition set_cancelled_at (v : option Z) (r : t) : t :=
  mk (id r) (passenger_id r) (driver_id r) (status r) (assigned_at r)
     (accepted_at r) (picked_up_at r) (completed_at r) v (distance r)
     (estimated_duration r) (actual_duration r).
Definition set_distance (v : Z) (r : t) : t :=
  mk (id r) (passenger_id r) (driver_id r) (status r) (assigned_at r)
     (accepted_at r) (picked_up_at r) (completed_at r) (cancelled_at r) v
     (estimated_duration r) (actual_duration r).
Definition set_actual_duration (v : option Z) (r : t) : t :=
  mk (id r) (passenger_id r) (driver_id r) (status r) (assigned_at r)
     (accepted_at r) (picked_up_at r) (completed_at r) (cancelled_at r)
     (distance r) (estimated_duration r) v.
End Ride.

Module KilometerEntry.
Record t : Type := mk {
  id : string;
  driver_id : string;
  start_km : Z;
  end_km : option Z;
  ride_id : option string;
  status : string
}.
Definition set_end_km (v : option Z) (k : t) : t :=
  mk (id k) (driver_id k) (start_km k) v (ride_id k) (status k).
Definition set_status (v : string) (k : t) : t :=
  mk (id k) (driver_id k) (start_km k) (end_km k) (ride_id k) v.
End KilometerEntry.

Module DriverAttendance.
Record t : Type := mk {
  id : string;
  driver_id : string;
  date : Z;
  start_time : Z;
  end_time : option Z;
  total_hours : option float;
  status : string
}.
Definition close (now : Z) (hours : float) (a : t) : t :=
  mk (id a) (driver_id a) (date a) (start_time a) (Some now) (Some hours)
     "completed".
End DriverAttendance.

Module LeaveRequest.
Record t : Type := mk {
  id : string;
  driver_id : string;
  start_date : Z;
  end_date : Z;
  reason : string;
  status : string;
  reviewed_at : option Z;
  reviewed_by : option string;
  comments : option string
}.
Definition review (st : string) (now : Z) (by_ : string)
    (c : option string) (l : t) : t :=
  mk (id l) (driver_id l) (start_date l) (end_date l) (reason l) st
     (Some now) (Some by_) c.
End LeaveRequest.

(** ** The database: one list per table *)

Record DB : Type := mkDB {
  drivers : list Driver.t;
  rides : list Ride.t;
  km_entries : list KilometerEntry.t;
  attendance : list DriverAttendance.t;
  leave_requests : list LeaveRequest.t
}.

Definition with_drivers (f : list Driver.t → list Driver.t) (db : DB) : DB :=
  mkDB (f (drivers db)) (rides db) (km_entries db) (attendance db)
       (leave_requests db).
Definition with_rides (f : list Ride.t → list Ride.t) (db : DB) : DB :=
  mkDB (drivers db) (f (rides db)) (km_entries db) (attendance db)
       (leave_requests db).
Definition with_km_entries
    (f : list KilometerEntry.t → list KilometerEntry.t) (db : DB) : DB :=
  mkDB (drivers db) (rides db) (f (km_entries db)) (attendance db)
       (leave_requests db).
Definition with_attendance
    (f : list DriverAttendance.t → list DriverAttendance.t) (db : DB) : DB :=
  mkDB (drivers db) (rides db) (km_entries db) (f (attendance db))
       (leave_requests db).
Definition with_leave_requests
    (f : list LeaveRequest.t → list LeaveRequest.t) (db : DB) : DB :=
  mkDB (drivers db) (rides db) (km_entries db) (attendance db)
       (f (leave_requests db)).

(** Queries: [db.query(T).filter(...).first()]. *)

Definition driver_by_id (i : string) (db : DB) : option (nat * Driver.t) :=
  list_find (λ d, Driver.id d = i) (drivers db).
Definition driver_by_user_id (u : string) (db : DB) : option (nat * Driver.t) :=
  list_find (λ d, Driver.user_id d = u) (drivers db).
Definition ride_by_id (i : string) (db : DB) : option (nat * Ride.t) :=
  list_find (λ r, Ride.id r = i) (rides db).
Definition km_entry_by_id (i : string) (db : DB)
    : option (nat * KilometerEntry.t) :=
  list_find (λ k, KilometerEntry.id k = i) (km_entries db).
Definition started_km_entry_of_ride (rid : string) (db : DB)
    : option (nat * KilometerEntry.t) :=
  list_find (λ k, KilometerEntry.ride_id k = Some rid
                  ∧ KilometerEntry.status k = "started") (km_entries db).
Definition active_attendance_of (did : string) (db : DB)
    : option (nat * DriverAttendance.t) :=
  list_find (λ a, DriverAttendance.driver_id a = did
                  ∧ DriverAttendance.status a = "active") (attendance db).
Definition leave_request_by_id (i : string) (db : DB)
    : option (nat * LeaveRequest.t) :=
  list_find (λ l, LeaveRequest.id l = i) (leave_requests db).

(** [now.date()], as the time stamp of that day's midnight. *)
Definition microseconds_per_day : Z := 86400000000.
Definition date_of (now : Z) : Z := now - now `mod` microseconds_per_day.

(** [timedelta.total_seconds()]: the microseconds of the duration divided by
    [10**6], an integer true division, which rounds the exact quotient to
    the nearest double. *)
Definition total_seconds (microseconds : Z) : float :=
  SF2Prim
    (SFdiv prec emax
       match microseconds with
       | Z0 => S754_zero false
       | Zpos p => S754_finite false p 0
       | Zneg p => S754_finite true p 0
       end
       (S754_finite false 1000000 0)).

(** [duration.total_seconds() / 3600], a division of doubles. *)
Definition hours_between (start now : Z) : float :=
  PrimFloat.div (total_seconds (now - start)) 3600%float.

(** What an Integer column can hold; binding anything else raises
    [OverflowError]. *)
Definition sqlite_integer (z : Z) : Prop :=
  -9223372036854775808 ≤ z ≤ 9223372036854775807.
#[global] Instance sqlite_integer_dec (z : Z) : Decision (sqlite_integer z) :=
  ltac:(unfold sqlite_integer; apply _).

(** The same for an optional integer: [None] is stored as NULL. *)
Definition sqlite_integer_opt (o : option Z) : Prop :=
  match o with Some z => sqlite_integer z | None => True end.
#[global] Instance sqlite_integer_opt_dec (o : option Z)
    : Decision (sqlite_integer_opt o) :=
  ltac:(destruct o; simpl; apply _).

(** The principal handed over by the [auth] module, which is not modelled:
    the handlers below read only its [id] and [role]. *)
Module UserRole.
Inductive t : Type := admin | driver | passenger.
End UserRole.
Record User : Type := mkUser { user_id_of : string; role : UserRole.t }.

(** ** main.py: the handlers *)

Section Handlers.

Definition commit_insert {A} (key : A → string) (row : A) (table : list A)
    : result (list A) :=
  if decide (key row ∈ key <$> table) then Err IntegrityError
  else Ok (table ++ [row]).

(** [startup_event], as far as the tables above go: the sample driver. *)
Definition startup_event (driver_user_id driver_id : string) (now : Z) : DB :=
  mkDB [Driver.mk driver_id driver_user_id 1250 false 45230 now] [] [] [] [].

(** [PUT /drivers/{driver_id}/status] *)
Definition update_driver_status (driver_id : string) (is_online : bool)
    (now : Z) (db : DB) : result DB :=
  match driver_by_id driver_id db with
  | None => Err (HTTPException 404 "Driver not found")
  | Some (i, _) =>
      Ok (with_drivers (alter (Driver.set_is_online is_online now) i) db)
  end.

(** [PUT /drivers/me/status] *)
Definition update_my_status (is_online : bool) (current_user : User)
    (now : Z) (db : DB) : result DB :=
  match driver_by_user_id (user_id_of current_user) db with
  | None => Err (HTTPException 404 "Driver profile not found")
  | Some (i, _) =>
      Ok (with_drivers (alter (Driver.set_is_online is_online now) i) db)
  end.

(** [PUT /drivers/me/status-body]; [request] is [request.get("is_online")],
    [now] the clock read before the attendance bookkeeping and [now2] the
    one read for [last_status_change]. *)
Definition update_my_status_body (request : option bool)
    (current_user : User) (new_id : string) (now now2 : Z) (db : DB)
    : result DB :=
  match request with
  | None => Err (HTTPException 400 "is_online parameter is required")
  | Some is_online =>
    match driver_by_user_id (user_id_of current_user) db with
    | None => Err (HTTPException 404 "Driver profile not found")
    | Some (i, driver) =>
      let finish (db' : DB) : DB :=
        with_drivers (alter (Driver.set_is_online is_online now2) i) db' in
      if is_online && negb (Driver.is_online driver) then
        match commit_insert DriverAttendance.id
                (DriverAttendance.mk new_id (Driver.id driver) (date_of now)
                   now None None "active") (attendance db) with
        | Err e => Err e
        | Ok att => Ok (finish (with_attendance (λ _, att) db))
        end
      else if negb is_online && Driver.is_online driver then
        match active_attendance_of (Driver.id driver) db with
        | Some (j, active_attendance) =>
            Ok (finish (with_attendance
                  (alter (DriverAttendance.close now
                            (hours_between
                               (DriverAttendance.start_time active_attendance)
                               now)) j) db))
        | None => Ok (finish db)
        end
      else Ok (finish db)
    end
  end.

(** [POST /km-entries] *)
Definition create_km_entry (driver_id : string) (start_km : Z)
    (ride_id : option string) (new_id : string) (db : DB) : result DB :=
  if decide (¬ sqlite_integer start_km) then Err OverflowError
  else
    match commit_insert KilometerEntry.id
            (KilometerEntry.mk new_id driver_id start_km None ride_id
               "started") (km_entries db) with
    | Err e => Err e
    | Ok kms =>
        let db1 := with_km_entries (λ _, kms) db in
        match driver_by_id driver_id db with
        | Some (i, _) =>
            Ok (with_drivers
                  (alter (Driver.set_current_km_reading start_km) i) db1)
        | None => Ok db1
        end
    end.

(** [PUT /km-entries/{entry_id}/complete] *)
Definition complete_km_entry (entry_id : string) (end_km : Z) (db : DB)
    : result DB :=
  match km_entry_by_id entry_id db with
  | None => Err (HTTPException 404 "Kilometer entry not found")
  | Some (j, entry) =>
      if decide (¬ sqlite_integer end_km) then Err OverflowError
      else
        let db1 :=
          with_km_entries
            (alter (λ k, KilometerEntry.set_status "completed"
                           (KilometerEntry.set_end_km (Some end_km) k)) j)
            db in
        match driver_by_id (KilometerEntry.driver_id entry) db with
        | Some (i, _) =>
            Ok (with_drivers
                  (alter (Driver.set_current_km_reading end_km) i) db1)
        | None => Ok db1
        end
  end.

(** [POST /leave-requests]; an empty [driver_id] is as false as a missing
    one. *)
Definition create_leave_request (req_driver_id : option string)
    (start_date end_date : Z) (reason : string) (current_user : User)
    (new_id : string) (db : DB) : result DB :=
  let chosen : result string :=
    match role current_user with
    | UserRole.admin =>
        match req_driver_id with
        | None | Some "" =>
            Err (HTTPException 400 "driver_id is required for admin requests")
        | Some d => Ok d
        end
    | _ => Ok (user_id_of current_user)
    end in
  match chosen with
  | Err e => Err e
  | Ok u =>
    match driver_by_user_id u db with
    | None => Err (HTTPException 404 "Driver not found")
    | Some (_, drv) =>
      match commit_insert LeaveRequest.id
              (LeaveRequest.mk new_id (Driver.id drv) start_date end_date
                 reason "pending" None None None) (leave_requests db) with
      | Err e => Err e
      | Ok lrs => Ok (with_leave_requests (λ _, lrs) db)
      end
    end
  end.

(** [PUT /leave-requests/{request_id}/review] *)
Definition review_leave_request (request_id : string)
    (review_status : LeaveStatus) (review_comments : option string)
    (current_user : User) (now : Z) (db : DB) : result DB :=
  match leave_request_by_id request_id db with
  | None => Err (HTTPException 404 "Leave request not found")
  | Some (i, _) =>
      Ok (with_leave_requests
            (alter (LeaveRequest.review (LeaveStatus_value review_status) now
                      (user_id_of current_user) review_comments) i) db)
  end.

(** [POST /rides] *)
Definition create_ride (passenger_id : string) (new_id : string) (db : DB)
    : result DB :=
  match commit_insert Ride.id
          (Ride.mk new_id passenger_id None "requested" None None None None
             None 0 0 None) (rides db) with
  | Err e => Err e
  | Ok rs => Ok (with_rides (λ _, rs) db)
  end.

(** [PUT /rides/{ride_id}/status] *)
Definition update_ride_status (ride_id : string) (status : RideStatus)
    (now : Z) (db : DB) : result DB :=
  match ride_by_id ride_id db with
  | None => Err (HTTPException 404 "Ride not found")
  | Some (i, _) =>
      let stamp : Ride.t → Ride.t :=
        match status with
        | accepted => Ride.set_accepted_at (Some now)
        | picking_up => Ride.set_picked_up_at (Some now)
        | in_progress => Ride.set_picked_up_at (Some now)
        | completed => Ride.set_completed_at (Some now)
        | cancelled => Ride.set_cancelled_at (Some now)
        | requested | assigned => λ r, r
        end in
      Ok (with_rides
            (alter (λ r, stamp (Ride.set_status (RideStatus_value status) r))
               i) db)
  end.

(** [POST /rides/{ride_id}/assign] *)
Definition assign_ride_to_driver (ride_id : string)
    (assignment_driver_id : string) (now : Z) (db : DB) : result DB :=
  match ride_by_id ride_id db with
  | None => Err (HTTPException 404 "Ride not found")
  | Some (i, ride) =>
    if decide (Ride.status ride ≠ "requested") then
      Err (HTTPException 400 "Ride is not in requested status")
    else
      match driver_by_id assignment_driver_id db with
      | None => Err (HTTPException 404 "Driver not found")
      | Some (_, drv) =>
        if negb (Driver.is_online drv) then
          Err (HTTPException 400 "Driver is not online")
        else
          Ok (with_rides
                (alter (λ r, Ride.set_assigned_at (Some now)
                               (Ride.set_status "assigned"
                                  (Ride.set_driver_id
                                     (Some assignment_driver_id) r))) i) db)
      end
  end.

(** [POST /rides/{ride_id}/start] *)
Definition start_ride (ride_id : string) (start_km : Z)
    (current_user : User) (new_id : string) (now : Z) (db : DB)
    : result DB :=
  match driver_by_user_id (user_id_of current_user) db with
  | None => Err (HTTPException 404 "Driver profile not found")
  | Some (di, drv) =>
    match ride_by_id ride_id db with
    | None => Err (HTTPException 404 "Ride not found")
    | Some (ri, ride) =>
      if decide (Ride.driver_id ride ≠ Some (Driver.id drv)) then
        Err (HTTPException 403 "You are not assigned to this ride")
      else if decide (Ride.status ride ≠ "assigned") then
        Err (HTTPException 400 "Ride is not in assigned status")
      else if decide (¬ sqlite_integer start_km) then Err OverflowError
      else
        match commit_insert KilometerEntry.id
                (KilometerEntry.mk new_id (Driver.id drv) start_km None
                   (Some ride_id) "started") (km_entries db) with
        | Err e => Err e
        | Ok kms =>
            Ok (with_drivers
                  (alter (Driver.set_current_km_reading start_km) di)
                  (with_km_entries (λ _, kms)
                     (with_rides
                        (alter (λ r, Ride.set_picked_up_at (Some now)
                                       (Ride.set_status "in_progress" r)) ri)
                        db)))
        end
    end
  end.

(** [hasattr(ride, 'start_km')]: the [Ride] class of database.py declares no
    [start_km], so the attribute is never there. *)
Definition ride_start_km (ride : Ride.t) : option Z := None.

(** [POST /rides/{ride_id}/complete] *)
Definition complete_ride (ride_id : string) (end_km : Z)
    (actual_duration : option Z) (current_user : User) (now : Z) (db : DB)
    : result DB :=
  match driver_by_user_id (user_id_of current_user) db with
  | None => Err (HTTPException 404 "Driver profile not found")
  | Some (di, drv) =>
    match ride_by_id ride_id db with
    | None => Err (HTTPException 404 "Ride not found")
    | Some (ri, ride) =>
      if decide (Ride.driver_id ride ≠ Some (Driver.id drv)) then
        Err (HTTPException 403 "You are not assigned to this ride")
      else if decide (Ride.status ride ≠ "in_progress") then
        Err (HTTPException 400 "Ride is not in progress")
      else if decide (¬ (sqlite_integer end_km
                         ∧ sqlite_integer_opt actual_duration
                         ∧ sqlite_integer (Driver.total_rides drv + 1)))
      then Err OverflowError
      else
        let distance :=
          match ride_start_km ride with
          | Some start_km => end_km - start_km
          | None => 0
          end in
        let db1 :=
          with_rides
            (alter (λ r, Ride.set_distance distance
                           (Ride.set_actual_duration actual_duration
                              (Ride.set_completed_at (Some now)
                                 (Ride.set_status "completed" r)))) ri) db in
        let db2 :=
          match started_km_entry_of_ride ride_id db with
          | Some (ki, _) =>
              with_km_entries
                (alter (λ k, KilometerEntry.set_status "completed"
                               (KilometerEntry.set_end_km (Some end_km) k))
                   ki) db1
          | None => db1
          end in
        Ok (with_drivers
              (alter (λ d, Driver.incr_total_rides
                             (Driver.set_current_km_reading end_km d)) di)
              db2)
    end
  end.

End Handlers.

(** The database a request leaves behind: a handler that raised committed
    nothing. *)
Definition state_after (db : DB) (r : result DB) : DB :=
  match r with Ok db' => db' | Err _ => db end.


(** ** Requests and the states the server reaches *)

Inductive request : Type :=
  | UpdateDriverStatus (driver_id : string) (is_online : bool) (now : Z)
  | UpdateMyStatus (is_online : bool) (current_user : User) (now : Z)
  | UpdateMyStatusBody (body : option bool) (current_user : User)
      (new_id : string) (now now2 : Z)
  | CreateKmEntry (driver_id : string) (start_km : Z)
      (ride_id : option string) (new_id : string)
  | CompleteKmEntry (entry_id : string) (end_km : Z)
  | CreateLeaveRequest (req_driver_id : option string) (start_date end_date : Z)
      (reason : string) (current_user : User) (new_id : string)
  | ReviewLeaveRequest (request_id : string) (review_status : LeaveStatus)
      (review_comments : option string) (current_user : User) (now : Z)
  | CreateRide (passenger_id : string) (new_id : string)
  | UpdateRideStatus (ride_id : string) (status : RideStatus) (now : Z)
  | AssignRideToDriver (ride_id : string) (driver_id : string) (now : Z)
  | StartRide (ride_id : string) (start_km : Z) (current_user : User)
      (new_id : string) (now : Z)
  | CompleteRide (ride_id : string) (end_km : Z) (actual_duration : option Z)
      (current_user : User) (now : Z).

Definition handle (rq : request) (db : DB) : result DB :=
  match rq with
  | UpdateDriverStatus d b now => update_driver_status d b now db
  | UpdateMyStatus b u now => update_my_status b u now db
  | UpdateMyStatusBody b u i now now2 => update_my_status_body b u i now now2 db
  | CreateKmEntry d km r i => create_km_entry d km r i db
  | CompleteKmEntry e km => complete_km_entry e km db
  | CreateLeaveRequest d s e r u i => create_leave_request d s e r u i db
  | ReviewLeaveRequest i st c u now => review_leave_request i st c u now db
  | CreateRide p i => create_ride p i db
  | UpdateRideStatus r st now => update_ride_status r st now db
  | AssignRideToDriver r d now => assign_ride_to_driver r d now db
  | StartRide r km u i now => start_ride r km u i now db
  | CompleteRide r km dur u now => complete_ride r km dur u now db
  end.

Definition serve (db : DB) (rq : request) : DB := state_after db (handle rq db).

Definition serve_all (db : DB) (rqs : list request) : DB := foldl serve db rqs.

Definition reachable (db : DB) : Prop :=
  ∃ u d now rqs, db = serve_all (startup_event u d now) rqs.

(** The two handlers that write [is_online] and nothing else. *)
Definition writes_flag_only (rq : request) : bool :=
  match rq with
  | UpdateDriverStatus _ _ _ | UpdateMyStatus _ _ _ => true
  | _ => false
  end.

(** ** Per-driver bookkeeping *)

Definition active_sessions (did : string) (db : DB)
    : list DriverAttendance.t :=
  filter (λ a, DriverAttendance.driver_id a = did
               ∧ DriverAttendance.status a = "active") (attendance db).

Definition started_entries (did : string) (db : DB) : list KilometerEntry.t :=
  filter (λ k, KilometerEntry.driver_id k = did
               ∧ KilometerEntry.status k = "started") (km_entries db).

Definition at_most_one_active (db : DB) : Prop :=
  Forall (λ d, (length (active_sessions (Driver.id d) db) ≤ 1)%nat)
         (drivers db).

Definition at_most_one_started (db : DB) : Prop :=
  Forall (λ d, (length (started_entries (Driver.id d) db) ≤ 1)%nat)
         (drivers db).

Definition online_agrees (db : DB) : Prop :=
  Forall (λ d, Driver.is_online d = true
               ↔ active_sessions (Driver.id d) db ≠ []) (drivers db).

(** Driver ids are a primary key, and a driver has one active session when
    online and none when offline. *)
Definition sessions_match_flag (db : DB) : Prop :=
  NoDup (Driver.id <$> drivers db) ∧
  Forall (λ d, length (active_sessions (Driver.id d) db)
               = if Driver.is_online d then 1%nat else 0%nat) (drivers db).

(** ** The transition table of the specification, for comparison *)


(** ** Sample databases, each reached from [startup_event] by the requests
    shown and kept in evaluated form *)

Definition driver1 : User := mkUser "u1" UserRole.driver.
Definition admin1 : User := mkUser "u0" UserRole.admin.

Definition db_startup : DB := Eval vm_compute in startup_event "u1" "d1" 0.

Definition to_requested : list request :=
  [UpdateMyStatusBody (Some true) driver1 "a1" 1 2; CreateRide "p1" "r1"].
Definition db_requested : DB :=
  Eval vm_compute in serve_all db_startup to_requested.

Definition to_assigned : list request :=
  to_requested ++ [AssignRideToDriver "r1" "d1" 2].
Definition db_assigned : DB :=
  Eval vm_compute in serve_all db_startup to_assigned.

Definition to_in_progress : list request :=
  to_assigned ++ [StartRide "r1" 100 driver1 "k1" 3].
Definition db_in_progress : DB :=
  Eval vm_compute in serve_all db_startup to_in_progress.

Definition to_in_progress_no_entry : list request :=
  to_assigned ++ [UpdateRideStatus "r1" in_progress 3].
Definition db_in_progress_no_entry : DB :=
  Eval vm_compute in serve_all db_startup to_in_progress_no_entry.

Definition to_completed : list request :=
  to_in_progress ++ [CompleteRide "r1" 150 (Some 12) driver1 9].
Definition db_completed : DB :=
  Eval vm_compute in serve_all db_startup to_completed.

(** A driver with an open odometer entry and a ride assigned. *)
Definition to_open_entry : list request :=
  to_assigned ++ [CreateKmEntry "d1" 100 None "k0"].
Definition db_open_entry : DB :=
  Eval vm_compute in serve_all db_startup to_open_entry.

Definition to_leave_approved : list request :=
  [CreateLeaveRequest None 10 20 "holiday" driver1 "l1";
   ReviewLeaveRequest "l1" approved None admin1 5].
Definition db_leave_approved : DB :=
  Eval vm_compute in serve_all db_startup to_leave_approved.

(** ** main.py: the handlers that only read *)

(** A handler that answers with a value, raises one of the errors above, or
    dies on a pydantic [ValidationError] or on a [ValueError]. *)
Inductive response (A : Type) : Type :=
  | Returns (a : A)
  | Raises (e : error)
  | RaisesValidationError
  | RaisesValueError.
Arguments Returns {A} a.
Arguments Raises {A} e.
Arguments RaisesValidationError {A}.
Arguments RaisesValueError {A}.

(** [if driver_id:] on an optional query parameter: a missing one and an
    empty one both count as absent. *)
Definition given (o : option string) : option string :=
  match o with
  | None | Some "" => None
  | Some s => Some s
  end.

(** [RideStatus(value)]: the member with that value, if any. *)
Definition RideStatus_members : list RideStatus :=
  [requested; assigned; accepted; picking_up; in_progress; completed;
   cancelled].
Definition RideStatus_of_value (s : string) : option RideStatus :=
  snd <$> list_find (λ m, RideStatus_value m = s) RideStatus_members.

(** schemas.Ride, on the columns kept in [Ride.t]. *)
Module RideSchema.
Record t : Type := mk {
  id : string;
  passenger_id : string;
  driver_id : option string;
  status : RideStatus;
  assigned_at : option Z;
  accepted_at : option Z;
  picked_up_at : option Z;
  completed_at : option Z;
  cancelled_at : option Z;
  distance : Z;
  estimated_duration : Z;
  actual_duration : option Z
}.
End RideSchema.

(** [db_ride_to_schema]: a field-by-field copy; validation can fail on
    [status] only (the other columns kept here are typed as in the table). *)
Definition db_ride_to_schema (ride : Ride.t) : option RideSchema.t :=
  match RideStatus_of_value (Ride.status ride) with
  | None => None
  | Some st =>
      Some (RideSchema.mk (Ride.id ride) (Ride.passenger_id ride)
              (Ride.driver_id ride) st (Ride.assigned_at ride)
              (Ride.accepted_at ride) (Ride.picked_up_at ride)
              (Ride.completed_at ride) (Ride.cancelled_at ride)
              (Ride.distance ride) (Ride.estimated_duration ride)
              (Ride.actual_duration ride))
  end.

(** [[db_ride_to_schema(r) for r in rides]] *)
Definition rides_to_schema (rs : list Ride.t)
    : response (list RideSchema.t) :=
  match mapM db_ride_to_schema rs with
  | Some l => Returns l
  | None => RaisesValidationError
  end.

(** [GET /drivers/{driver_id}] *)
Definition get_driver (driver_id : string) (db : DB) : result Driver.t :=
  match driver_by_id driver_id db with
  | None => Err (HTTPException 404 "Driver not found")
  | Some (_, drv) => Ok drv
  end.

(** [GET /km-entries] *)
Definition get_km_entries (driver_id : option string) (db : DB)
    : list KilometerEntry.t :=
  match given driver_id with
  | Some d => filter (λ k, KilometerEntry.driver_id k = d) (km_entries db)
  | None => km_entries db
  end.

(** The query of [GET /rides] *)
Definition rides_query (passenger_id driver_id : option string) (db : DB)
    : list Ride.t :=
  let query :=
    match given passenger_id with
    | Some p => filter (λ r, Ride.passenger_id r = p) (rides db)
    | None => rides db
    end in
  match given driver_id with
  | Some d => filter (λ r, Ride.driver_id r = Some d) query
  | None => query
  end.

(** [GET /rides] *)
Definition get_rides (passenger_id driver_id : option string) (db : DB)
    : response (list RideSchema.t) :=
  rides_to_schema (rides_query passenger_id driver_id db).

(** The query of [GET /rides/pending] *)
Definition pending_query (db : DB) : list Ride.t :=
  filter (λ r, Ride.status r = "requested") (rides db).

(** [GET /rides/pending] *)
Definition get_pending_rides (db : DB) : response (list RideSchema.t) :=
  rides_to_schema (pending_query db).

(** The query of [GET /rides/assigned], for the driver found *)
Definition assigned_query (did : string) (db : DB) : list Ride.t :=
  filter (λ r, Ride.driver_id r = Some did
               ∧ Ride.status r ∈ ["assigned"; "in_progress"]) (rides db).

(** [GET /rides/assigned] *)
Definition get_assigned_rides (current_user : User) (db : DB)
    : response (list RideSchema.t) :=
  match driver_by_user_id (user_id_of current_user) db with
  | None => Raises (HTTPException 404 "Driver profile not found")
  | Some (_, drv) => rides_to_schema (assigned_query (Driver.id drv) db)
  end.

(** [GET /leave-requests] *)
Definition get_leave_requests (driver_id : option string)
    (current_user : User) (db : DB) : result (list LeaveRequest.t) :=
  match given driver_id with
  | Some d =>
      match role current_user with
      | UserRole.admin =>
          Ok (filter (λ l, LeaveRequest.driver_id l = d) (leave_requests db))
      | _ =>
          Err (HTTPException 403
                 "Only admins can view other drivers' leave requests")
      end
  | None =>
      match role current_user with
      | UserRole.driver =>
          match driver_by_user_id (user_id_of current_user) db with
          | Some (_, drv) =>
              Ok (filter (λ l, LeaveRequest.driver_id l = Driver.id drv)
                    (leave_requests db))
          | None => Ok (leave_requests db)
          end
      | _ => Ok (leave_requests db)
      end
  end.

(** [GET /leave-requests/{request_id}] *)
Definition get_leave_request (request_id : string) (current_user : User)
    (db : DB) : result LeaveRequest.t :=
  match leave_request_by_id request_id db with
  | None => Err (HTTPException 404 "Leave request not found")
  | Some (_, leave_request) =>
      match role current_user with
      | UserRole.driver =>
          match driver_by_user_id (user_id_of current_user) db with
          | None => Err (HTTPException 403 "Access denied")
          | Some (_, drv) =>
              if decide (LeaveRequest.driver_id leave_request ≠ Driver.id drv)
              then Err (HTTPException 403 "Access denied")
              else Ok leave_request
          end
      | _ => Ok leave_request
      end
  end.

(** The answer of [GET /leave-requests/stats] *)
Record LeaveStats : Type := mkLeaveStats {
  total_requests : nat;
  pending_requests : nat;
  approved_requests : nat;
  rejected_requests : nat
}.

Definition count_status (st : string) (ls : list LeaveRequest.t) : nat :=
  length (filter (λ l, LeaveRequest.status l = st) ls).

(** [get_leave_request_stats] *)
Definition get_leave_request_stats (current_user : User) (db : DB)
    : result LeaveStats :=
  match role current_user with
  | UserRole.admin =>
      let ls := leave_requests db in
      Ok (mkLeaveStats (length ls) (count_status "pending" ls)
            (count_status "approved" ls) (count_status "rejected" ls))
  | _ =>
      match driver_by_user_id (user_id_of current_user) db with
      | None => Err (HTTPException 404 "Driver profile not found")
      | Some (_, drv) =>
          let ls := filter (λ l, LeaveRequest.driver_id l = Driver.id drv)
                      (leave_requests db) in
          Ok (mkLeaveStats (length ls) (count_status "pending" ls)
                (count_status "approved" ls) (count_status "rejected" ls))
      end
  end.

(** ** main.py: a ride created by an administrator *)

(** The passengers table, which [create_manual_ride] reads. *)
Module Passenger.
Record t : Type := mk { id : string; user_id : string; total_rides : Z }.
End Passenger.

(** A value of the request's JSON object.  Of an array or an object only
    the kind is kept: the handler hands the value to SQLite, which cannot
    bind either. *)
Inductive json : Type :=
  | JNull
  | JBool (b : bool)
  | JInt (n : Z)
  | JFloat (f : float)
  | JString (s : string)
  | JArray
  | JObject.

Section ManualRide.

(** [str(e)] of the exception caught; it belongs to the libraries that raise
    it. *)
Variable str_of_exception : error → string.

(** The text SQLite makes of a real number that meets a VARCHAR column. *)
Variable real_to_text : float → string.

(** A value bound to a statement and brought to a VARCHAR column, in a
    comparison or in an INSERT: NULL ([None]) or a text.  [null] and NaN are
    bound as NULL, [true] and [false] as 1 and 0, an integer of more than 64
    bits raises [OverflowError], an array or object cannot be bound. *)
Definition bound_text (v : json) : result (option string) :=
  match v with
  | JNull => Ok None
  | JBool b => Ok (Some (if b then "1" else "0"))
  | JInt n =>
      if decide (sqlite_integer n) then Ok (Some (pretty n))
      else Err OverflowError
  | JFloat f => if PrimFloat.is_nan f then Ok None else Ok (Some (real_to_text f))
  | JString s => Ok (Some s)
  | JArray | JObject => Err InterfaceError
  end.

(** The [try] block of [create_manual_ride]; [ride_data] is the request's
    JSON object.  The two addresses are bound with the INSERT (in column
    order) and must not be NULL; the address columns themselves are among
    those left out of [Ride.t]. *)
Definition create_manual_ride_try (passengers : list Passenger.t)
    (ride_data : gmap string json) (new_id : string) (now : Z) (db : DB)
    : result DB :=
  match list_find (λ field, ride_data !! field = None)
          ["passenger_id"; "driver_id"; "pickup_address"; "dropoff_address"]
  with
  | Some (_, field) =>
      Err (HTTPException 400 ("Missing required field: " +:+ field))
  | None =>
    match bound_text (default JNull (ride_data !! "passenger_id")) with
    | Err e => Err e
    | Ok passenger_id =>
      match passenger_id
            ≫= λ p, list_find (λ row, Passenger.id row = p) passengers with
      | None => Err (HTTPException 404 "Passenger not found")
      | Some _ =>
        match bound_text (default JNull (ride_data !! "driver_id")) with
        | Err e => Err e
        | Ok driver_id =>
          match driver_id ≫= λ d, driver_by_id d db with
          | None => Err (HTTPException 404 "Driver not found")
          | Some (_, drv) =>
            if negb (Driver.is_online drv) then
              Err (HTTPException 400 "Driver is not online")
            else
              match bound_text
                      (default JNull (ride_data !! "pickup_address")) with
              | Err e => Err e
              | Ok pickup_address =>
                match bound_text
                        (default JNull (ride_data !! "dropoff_address")) with
                | Err e => Err e
                | Ok dropoff_address =>
                  match pickup_address, dropoff_address with
                  | Some _, Some _ =>
                      match commit_insert Ride.id
                              (Ride.mk new_id (default "" passenger_id)
                                 driver_id "assigned" (Some now) None None
                                 None None 0 0 None) (rides db) with
                      | Err e => Err e
                      | Ok rs => Ok (with_rides (λ _, rs) db)
                      end
                  | _, _ => Err IntegrityError
                  end
                end
              end
          end
        end
      end
    end
  end.

(** [POST /rides/manual]: whatever the [try] block raises is caught and
    raised again as a 500. *)
Definition create_manual_ride (passengers : list Passenger.t)
    (ride_data : gmap string json) (new_id : string) (now : Z) (db : DB)
    : result DB :=
  match create_manual_ride_try passengers ride_data new_id now db with
  | Ok db' => Ok db'
  | Err e =>
      Err (HTTPException 500 ("Error creating ride: " +:+ str_of_exception e))
  end.

End ManualRide.

(** ** What the tables keep *)

Definition ride_statuses_valid (db : DB) : Prop :=
  Forall (λ r, is_Some (RideStatus_of_value (Ride.status r))) (rides db).

Definition leave_statuses_valid (db : DB) : Prop :=
  Forall (λ l, LeaveRequest.status l ∈ ["pending"; "approved"; "rejected"])
         (leave_requests db).

(** No handler of the five tables removes a row or rewrites a primary key:
    the drivers keep their ids, and every other table is extended at its
    end. *)
Definition rows_kept (db db' : DB) : Prop :=
  Driver.id <$> drivers db' = Driver.id <$> drivers db ∧
  Ride.id <$> rides db `prefix_of` Ride.id <$> rides db' ∧
  KilometerEntry.id <$> km_entries db
    `prefix_of` KilometerEntry.id <$> km_entries db' ∧
  DriverAttendance.id <$> attendance db
    `prefix_of` DriverAttendance.id <$> attendance db' ∧
  LeaveRequest.id <$> leave_requests db
    `prefix_of` LeaveRequest.id <$> leave_requests db'.

(** ** Requests, with the administrator's manual rides *)

Inductive request_x : Type :=
  | Core (rq : request)
  | CreateManualRide (passengers : list Passenger.t)
      (ride_data : gmap string json) (new_id : string) (now : Z).

(** The two functions that belong to the libraries: [str(e)] and SQLite's
    text of a real number. *)
Record library : Type := mkLibrary {
  str_of_exception : error → string;
  real_to_text : float → string
}.

Definition handle_x (lib : library) (rq : request_x) (db : DB) : result DB :=
  match rq with
  | Core rq => handle rq db
  | CreateManualRide ps rd i now =>
      create_manual_ride (str_of_exception lib) (real_to_text lib) ps rd i
        now db
  end.

Definition serve_x (lib : library) (db : DB) (rq : request_x) : DB :=
  state_after db (handle_x lib rq db).

Definition serve_all_x (lib : library) (db : DB) (rqs : list request_x)
    : DB :=
  foldl (serve_x lib) db rqs.

(** What [create_manual_ride] asks for before it writes: the four fields,
    each one a value SQLite binds as a text, the passenger and the driver
    found under these texts, the driver online, the ride id unused. *)
Definition manual_ride_accepted (real_to_text : float → string)
    (ps : list Passenger.t) (rd : gmap string json) (new_id : string)
    (db : DB) (pid did : string) : Prop :=
  ∃ pv dv av bv a b j drv,
    rd !! "passenger_id" = Some pv ∧ rd !! "driver_id" = Some dv ∧
    rd !! "pickup_address" = Some av ∧ rd !! "dropoff_address" = Some bv ∧
    bound_text real_to_text pv = Ok (Some pid) ∧
    bound_text real_to_text dv = Ok (Some did) ∧
    bound_text real_to_text av = Ok (Some a) ∧
    bound_text real_to_text bv = Ok (Some b) ∧
    (pid ∈ Passenger.id <$> ps) ∧
    driver_by_id did db = Some (j, drv) ∧ Driver.is_online drv = true ∧
    (new_id ∉ Ride.id <$> rides db).

(** ** main.py: user and driver accounts *)

Module UserRow.
Record t : Type := mk {
  id : string;
  name : string;
  email : string;
  phone : string;
  role : string;
  password_hash : string;
  created_at : Z;
  is_active : bool
}.
End UserRow.

(** The users table beside the tables above. *)
Record Site : Type := mkSite { users : list UserRow.t; core : DB }.

Definition UserRole_value (r : UserRole.t) : string :=
  match r with
  | UserRole.admin => "admin"
  | UserRole.driver => "driver"
  | UserRole.passenger => "passenger"
  end.

(** schemas.UserCreateAdmin, and schemas.DriverCreateAdmin on the columns
    kept in [Driver.t] *)
Record UserCreateAdmin : Type := mkUserCreateAdmin {
  uc_name : string;
  uc_email : string;
  uc_phone : string;
  uc_role : UserRole.t
}.
Record DriverCreateAdmin : Type := mkDriverCreateAdmin {
  dc_user : UserCreateAdmin;
  dc_license_expiry : string
}.

Definition user_by_email (e : string) (s : Site) : option (nat * UserRow.t) :=
  list_find (λ u, UserRow.email u = e) (users s).

(** [POST /users]; [password_hash] is what [get_password_hash] returned. *)
Definition create_user (user_data : UserCreateAdmin)
    (new_id password_hash : string) (now : Z) (s : Site) : result Site :=
  match user_by_email (uc_email user_data) s with
  | Some _ => Err (HTTPException 400 "User with this email already exists")
  | None =>
      match commit_insert UserRow.id
              (UserRow.mk new_id (uc_name user_data) (uc_email user_data)
                 (uc_phone user_data) (UserRole_value (uc_role user_data))
                 password_hash now true) (users s) with
      | Err e => Err e
      | Ok us => Ok (mkSite us (core s))
      end
  end.

(** [POST /drivers].  The user row is flushed, then the driver row is built
    (where [datetime.fromisoformat] may raise) and both are committed
    together; the drivers table takes neither a used id nor a used
    [user_id]. *)
Definition create_driver (fromisoformat : string → option Z)
    (driver_data : DriverCreateAdmin)
    (new_user_id new_driver_id password_hash : string) (now now2 : Z)
    (s : Site) : response Site :=
  match user_by_email (uc_email (dc_user driver_data)) s with
  | Some _ =>
      Raises (HTTPException 400 "User with this email already exists")
  | None =>
      match commit_insert UserRow.id
              (UserRow.mk new_user_id (uc_name (dc_user driver_data))
                 (uc_email (dc_user driver_data))
                 (uc_phone (dc_user driver_data)) "driver" password_hash now
                 true) (users s) with
      | Err e => Raises e
      | Ok us =>
          match fromisoformat (dc_license_expiry driver_data) with
          | None => RaisesValueError
          | Some _ =>
              if decide (new_driver_id ∈ Driver.id <$> drivers (core s)
                         ∨ new_user_id ∈ Driver.user_id <$> drivers (core s))
              then Raises IntegrityError
              else
                Returns
                  (mkSite us
                     (with_drivers
                        (λ l, l ++ [Driver.mk new_driver_id new_user_id 0
                                      false 0 now2]) (core s)))
          end
      end
  end.

(** Requests to the whole site. *)
Inductive request_s : Type :=
  | OnCore (rq : request_x)
  | CreateUser (user_data : UserCreateAdmin) (new_id password_hash : string)
      (now : Z)
  | CreateDriver (driver_data : DriverCreateAdmin)
      (new_user_id new_driver_id password_hash : string) (now now2 : Z).

Definition serve_s (fromisoformat : string → option Z) (lib : library)
    (s : Site) (rq : request_s) : Site :=
  match rq with
  | OnCore rq => mkSite (users s) (serve_x lib (core s) rq)
  | CreateUser ud i h now =>
      match create_user ud i h now s with Ok s' => s' | Err _ => s end
  | CreateDriver dd ui di h now now2 =>
      match create_driver fromisoformat dd ui di h now now2 s with
      | Returns s' => s'
      | _ => s
      end
  end.

Definition serve_all_s (fromisoformat : string → option Z) (lib : library)
    (s : Site) (rqs : list request_s) : Site :=
  foldl (serve_s fromisoformat lib) s rqs.

Definition flag_only_s (rq : request_s) : bool :=
  match rq with
  | OnCore (Core rq) => writes_flag_only rq
  | _ => false
  end.

Definition emails_unique (s : Site) : Prop :=
  NoDup (UserRow.email <$> users s).

(** Across the site no request removes a row or rewrites a primary key. *)
Definition site_rows_kept (s s' : Site) : Prop :=
  UserRow.id <$> users s `prefix_of` UserRow.id <$> users s' ∧
  Driver.id <$> drivers (core s) `prefix_of` Driver.id <$> drivers (core s') ∧
  Ride.id <$> rides (core s) `prefix_of` Ride.id <$> rides (core s') ∧
  KilometerEntry.id <$> km_entries (core s)
    `prefix_of` KilometerEntry.id <$> km_entries (core s') ∧
  DriverAttendance.id <$> attendance (core s)
    `prefix_of` DriverAttendance.id <$> attendance (core s') ∧
  LeaveRequest.id <$> leave_requests (core s)
    `prefix_of` LeaveRequest.id <$> leave_requests (core s').

(** Every attendance session belongs to a driver of the table. *)
Definition sessions_of_drivers (db : DB) : Prop :=
  Forall (λ a, DriverAttendance.driver_id a ∈ Driver.id <$> drivers db)
         (attendance db).
(** ** Rows fetched with [first()] and then mutated *)

Section FindAlter.
Context {A : Type} (P : A → Prop) `{!∀ x, Decision (P x)}.
Implicit Types (l : list A) (f : A → A).

Lemma list_find_alter_same f l i x :
  list_find P l = Some (i, x) → P (f x) →
  list_find P (alter f i l) = Some (i, f x).
Proof.
  intros (Hi & _ & Hlt)%list_find_Some Hfx.
  apply list_find_Some. split_and!; [|done|].
  - by rewrite list_lookup_alter_eq, Hi.
  - intros j y Hj Hji. rewrite list_lookup_alter_ne in Hj by lia. eauto.
Qed.

Lemma list_find_snoc_Some l i x y :
  list_find P l = Some (i, x) → list_find P (l ++ [y]) = Some (i, x).
Proof. intros Hl. by apply list_find_app_l. Qed.

Lemma list_find_snoc_None l y :
  list_find P l = None → P y →
  list_find P (l ++ [y]) = Some (length l, y).
Proof.
  intros HN Hy. rewrite list_find_app_r by done. simpl.
  rewrite decide_True by done. simpl. do 2 f_equal; lia.
Qed.
End FindAlter.

(** ** Ride assignment *)

(** C7. For a ride and a driver that exist, [assign_ride_to_driver] raises
    400 "Ride is not in requested status" unless the ride is [requested]
    (the code's InvalidTransition), raises 400 "Driver is not online" when the
    ride is requested and the driver offline (its DriverUnavailable), and
    otherwise commits: the ride then carries the given driver, status
    [assigned] and [assigned_at = now], its other columns as before.  A raised
    request leaves the database, hence the ride, as it was. *)
Theorem assign_ride_to_driver_correct (db : DB) (ride_id did : string)
    (now : Z) (i j : nat) (ride : Ride.t) (drv : Driver.t) :
  ride_by_id ride_id db = Some (i, ride) →
  driver_by_id did db = Some (j, drv) →
  let r := assign_ride_to_driver ride_id did now db in
  (Ride.status ride ≠ "requested" →
     r = Err (HTTPException 400 "Ride is not in requested status")) ∧
  (Ride.status ride = "requested" → Driver.is_online drv = false →
     r = Err (HTTPException 400 "Driver is not online")) ∧
  (Ride.status ride = "requested" → Driver.is_online drv = true →
     ∃ db' ride',
       r = Ok db' ∧ ride_by_id ride_id db' = Some (i, ride') ∧
       Ride.driver_id ride' = Some did ∧
       Ride.status ride' = "assigned" ∧
       Ride.assigned_at ride' = Some now ∧
       Ride.set_assigned_at (Ride.assigned_at ride)
         (Ride.set_status (Ride.status ride)
            (Ride.set_driver_id (Ride.driver_id ride) ride')) = ride ∧
       drivers db' = drivers db) ∧
  (is_Ok r = true →
     Ride.status ride = "requested" ∧ Driver.is_online drv = true) ∧
  (is_Ok r = false → state_after db r = db).
Proof.
  intros Hr Hd r. subst r. unfold assign_ride_to_driver.
  rewrite Hr, Hd. split_and!.
  - intros Hs. by rewrite decide_True.
  - intros Hs Ho. rewrite decide_False by (by intros []). by rewrite Ho.
  - intros Hs Ho. rewrite decide_False by (by intros []). rewrite Ho. simpl.
    eexists _, _. split; [done|]. split.
    + unfold ride_by_id in *. simpl.
      apply list_find_alter_same; [done|].
      simpl. by apply list_find_Some in Hr as (_ & ? & _).
    + by destruct ride.
  - case_decide as Hs; [done|].
    destruct (Driver.is_online drv); done.
  - case_decide; [done|]. by destruct (Driver.is_online drv).
Qed.

Lemma assign_ride_to_driver_correct_witness :
  Ride.status <$> rides db_requested = ["requested"] ∧
  ∃ db' ride',
    assign_ride_to_driver "r1" "d1" 2 db_requested = Ok db' ∧
    ride_by_id "r1" db' = Some (0%nat, ride') ∧
    Ride.driver_id ride' = Some "d1" ∧ Ride.status ride' = "assigned".
Proof.
  split; [reflexivity|].
  destruct (assign_ride_to_driver_correct db_requested "r1" "d1" 2 0 0 _ _
              eq_refl eq_refl) as (_ & _ & H & _).
  destruct (H eq_refl eq_refl) as (db' & ride' & ? & ? & ? & ? & _).
  by exists db', ride'.
Defined.

(** ** Completing a ride *)

(** C10. When the caller is the driver of an [in_progress] ride and no
    [started] kilometer entry carries that ride's id, [complete_ride] still
    commits: the ride becomes [completed], the driver's
    [current_km_reading] is [end_km] and [total_rides] one more, and the
    kilometer table is as before.  The integers written ([end_km], the
    duration, the new [total_rides]) are such as an Integer column holds;
    when one of them is not, the commit raises [OverflowError] and nothing
    is written. *)
Theorem complete_ride_without_entry (db : DB) (ride_id : string) (end_km : Z)
    (dur : option Z) (u : User) (now : Z) (di ri : nat) (drv : Driver.t)
    (ride : Ride.t) :
  driver_by_user_id (user_id_of u) db = Some (di, drv) →
  ride_by_id ride_id db = Some (ri, ride) →
  Ride.driver_id ride = Some (Driver.id drv) →
  Ride.status ride = "in_progress" →
  started_km_entry_of_ride ride_id db = None →
  (sqlite_integer end_km → sqlite_integer_opt dur →
   sqlite_integer (Driver.total_rides drv + 1) →
   ∃ db' ride' drv',
     complete_ride ride_id end_km dur u now db = Ok db' ∧
     km_entries db' = km_entries db ∧
     ride_by_id ride_id db' = Some (ri, ride') ∧
     Ride.status ride' = "completed" ∧
     Ride.completed_at ride' = Some now ∧
     Ride.actual_duration ride' = dur ∧
     driver_by_user_id (user_id_of u) db' = Some (di, drv') ∧
     Driver.current_km_reading drv' = end_km ∧
     Driver.total_rides drv' = Driver.total_rides drv + 1) ∧
  (¬ (sqlite_integer end_km ∧ sqlite_integer_opt dur
      ∧ sqlite_integer (Driver.total_rides drv + 1)) →
   complete_ride ride_id end_km dur u now db = Err OverflowError ∧
   state_after db (complete_ride ride_id end_km dur u now db) = db).
Proof.
  intros Hd Hr Hdid Hst Hk. split.
  - intros Hkm Hdur Htot. unfold complete_ride.
    rewrite Hd, Hr, Hk. rewrite !decide_False by (intros []; done).
    eexists _, _, _. split; [done|]. simpl. split; [done|].
    unfold ride_by_id, driver_by_user_id in *. simpl. split_and!.
    + apply list_find_alter_same; [done|].
      by apply list_find_Some in Hr as (_ & ? & _).
    + done.
    + done.
    + done.
    + apply list_find_alter_same; [done|].
      by apply list_find_Some in Hd as (_ & ? & _).
    + done.
    + done.
  - intros Hout.
    assert (complete_ride ride_id end_km dur u now db = Err OverflowError)
      as E.
    { unfold complete_ride. rewrite Hd, Hr.
      rewrite !decide_False by (intros []; done). by rewrite decide_True. }
    by rewrite E.
Qed.

Lemma complete_ride_without_entry_witness :
  started_km_entry_of_ride "r1" db_in_progress_no_entry = None ∧
  ∃ db' ride' drv',
    complete_ride "r1" 150 (Some 12) driver1 9 db_in_progress_no_entry = Ok db' ∧
    km_entries db' = [] ∧
    ride_by_id "r1" db' = Some (0%nat, ride') ∧
    Ride.status ride' = "completed" ∧
    driver_by_user_id "u1" db' = Some (0%nat, drv') ∧
    Driver.current_km_reading drv' = 150 ∧
    Driver.total_rides drv' = 1251.
Proof.
  split; [reflexivity|].
  destruct (complete_ride_without_entry db_in_progress_no_entry "r1" 150
              (Some 12) driver1 9 0 0 _ _
              eq_refl eq_refl eq_refl eq_refl eq_refl) as [H _].
  destruct (H ltac:(by vm_compute) ltac:(by vm_compute)
              ltac:(by vm_compute))
    as (db' & ride' & drv' & ? & ? & ? & ? & _ & _ & ? & ? & ?).
  by exists db', ride', drv'.
Defined.

(** ** Writes to a ride's status *)

Lemma ride_by_id_holds (db : DB) (ride_id : string) (i : nat) (ride : Ride.t) :
  ride_by_id ride_id db = Some (i, ride) → Ride.id ride = ride_id.
Proof. by intros (_ & ? & _)%list_find_Some. Qed.

Lemma ride_by_id_alter (db : DB) (f : Ride.t → Ride.t) (ride_id : string)
    (i : nat) (ride : Ride.t) :
  (∀ r, Ride.id (f r) = Ride.id r) →
  ride_by_id ride_id db = Some (i, ride) →
  list_find (λ r, Ride.id r = ride_id) (alter f i (rides db))
  = Some (i, f ride).
Proof.
  intros Hf Hr. apply list_find_alter_same; [done|].
  rewrite Hf. by eapply ride_by_id_holds.
Qed.

(** Case analysis along the checks of a handler that committed. *)
Ltac open_handler :=
  repeat case_match; simplify_eq;
  repeat match goal with
         | H : decide _ = _ |- _ => clear H
         | H : ¬ (_ ≠ _) |- _ => apply dec_stable in H
         end.




(** ** Reviewing a leave request *)

(** C8, as the code has it. [review_leave_request] reads no status: for a
    request that exists, whatever its status, it commits the decision with
    [reviewed_at], [reviewed_by] and the comments, and a second review of the
    same request commits as well and overwrites the first. *)
Theorem review_leave_request_overwrites (db : DB) (request_id : string)
    (i : nat) (l : LeaveRequest.t) (st1 st2 : LeaveStatus)
    (c1 c2 : option string) (u1 u2 : User) (now1 now2 : Z) :
  leave_request_by_id request_id db = Some (i, l) →
  ∃ db1 l1 db2 l2,
    review_leave_request request_id st1 c1 u1 now1 db = Ok db1 ∧
    leave_request_by_id request_id db1 = Some (i, l1) ∧
    LeaveRequest.status l1 = LeaveStatus_value st1 ∧
    LeaveRequest.reviewed_at l1 = Some now1 ∧
    LeaveRequest.reviewed_by l1 = Some (user_id_of u1) ∧
    LeaveRequest.comments l1 = c1 ∧
    review_leave_request request_id st2 c2 u2 now2 db1 = Ok db2 ∧
    leave_request_by_id request_id db2 = Some (i, l2) ∧
    LeaveRequest.status l2 = LeaveStatus_value st2 ∧
    LeaveRequest.reviewed_at l2 = Some now2 ∧
    LeaveRequest.reviewed_by l2 = Some (user_id_of u2) ∧
    LeaveRequest.comments l2 = c2.
Proof.
  intros Hl.
  assert (Hstep : ∀ db0 l0 st c u now,
            leave_request_by_id request_id db0 = Some (i, l0) →
            ∃ db' l',
              review_leave_request request_id st c u now db0 = Ok db' ∧
              leave_request_by_id request_id db' = Some (i, l') ∧
              l' = LeaveRequest.review (LeaveStatus_value st) now
                     (user_id_of u) c l0).
  { intros db0 l0 st c u now H0. unfold review_leave_request. rewrite H0.
    eexists _, _. split; [done|]. split; [|done].
    unfold leave_request_by_id in *. simpl.
    apply list_find_alter_same; [done|].
    by apply list_find_Some in H0 as (_ & ? & _). }
  destruct (Hstep db l st1 c1 u1 now1 Hl) as (db1 & l1 & E1 & F1 & ->).
  destruct (Hstep db1 _ st2 c2 u2 now2 F1) as (db2 & l2 & E2 & F2 & ->).
  eexists db1, _, db2, _. by split_and!.
Qed.

Lemma review_leave_request_overwrites_witness :
  LeaveRequest.status <$> leave_requests db_leave_approved = ["approved"] ∧
  ∃ db1 l1 db2 l2,
    review_leave_request "l1" rejected None admin1 7 db_leave_approved = Ok db1 ∧
    leave_request_by_id "l1" db1 = Some (0%nat, l1) ∧
    LeaveRequest.status l1 = "rejected" ∧
    review_leave_request "l1" approved (Some "ok") admin1 8 db1 = Ok db2 ∧
    leave_request_by_id "l1" db2 = Some (0%nat, l2) ∧
    LeaveRequest.status l2 = "approved".
Proof.
  split; [reflexivity|].
  destruct (review_leave_request_overwrites db_leave_approved "l1" 0 _
              rejected approved None (Some "ok") admin1 admin1 7 8 eq_refl)
    as (db1 & l1 & db2 & l2 & ? & ? & ? & _ & _ & _ & ? & ? & ? & _).
  by exists db1, l1, db2, l2.
Defined.

(** C8 as stated fails: a request already [approved] is reviewed again, the
    call does not raise and the status changes to [rejected]. *)
Lemma review_of_reviewed_request_commits :
  LeaveRequest.status <$> leave_requests db_leave_approved = ["approved"] ∧
  ∃ db', review_leave_request "l1" rejected None admin1 7 db_leave_approved
         = Ok db' ∧
         LeaveRequest.status <$> leave_requests db' = ["rejected"] ∧
         db' ≠ db_leave_approved.
Proof. split; [done|]. eexists. by split_and!. Qed.

(** ** Odometer readings on completion *)

Lemma driver_by_user_id_alter (db : DB) (f : Driver.t → Driver.t) (u : string)
    (i : nat) (drv : Driver.t) :
  (∀ d, Driver.user_id (f d) = Driver.user_id d) →
  driver_by_user_id u db = Some (i, drv) →
  list_find (λ d, Driver.user_id d = u) (alter f i (drivers db))
  = Some (i, f drv).
Proof.
  intros Hf Hd. apply list_find_alter_same; [done|].
  rewrite Hf. by apply list_find_Some in Hd as (_ & ? & _).
Qed.

Lemma driver_by_id_alter (db : DB) (f : Driver.t → Driver.t) (did : string)
    (i : nat) (drv : Driver.t) :
  (∀ d, Driver.id (f d) = Driver.id d) →
  driver_by_id did db = Some (i, drv) →
  list_find (λ d, Driver.id d = did) (alter f i (drivers db))
  = Some (i, f drv).
Proof.
  intros Hf Hd. apply list_find_alter_same; [done|].
  rewrite Hf. by apply list_find_Some in Hd as (_ & ? & _).
Qed.

(** C3, as the code has it. Neither handler compares [end_km] with
    [start_km].  For the driver's [in_progress] ride with its [started]
    entry, [complete_ride] with an [end_km] below that entry's [start_km]
    commits, closes the entry with that [end_km] and sets the driver's
    reading to it.  For any entry of the ledger, tied to a ride or not,
    [complete_km_entry] with an [end_km] below its [start_km] commits and
    does the same.  The integers written are such as an Integer column
    holds; otherwise the commit raises [OverflowError] and nothing is
    written. *)
Theorem completion_accepts_lower_reading (db : DB) :
  (∀ ride_id end_km dur u now di ri ki drv ride k,
     driver_by_user_id (user_id_of u) db = Some (di, drv) →
     ride_by_id ride_id db = Some (ri, ride) →
     Ride.driver_id ride = Some (Driver.id drv) →
     Ride.status ride = "in_progress" →
     started_km_entry_of_ride ride_id db = Some (ki, k) →
     end_km < KilometerEntry.start_km k →
     sqlite_integer end_km → sqlite_integer_opt dur →
     sqlite_integer (Driver.total_rides drv + 1) →
     ∃ db' drv',
       complete_ride ride_id end_km dur u now db = Ok db' ∧
       km_entries db' !! ki
       = Some (KilometerEntry.mk (KilometerEntry.id k)
                 (KilometerEntry.driver_id k) (KilometerEntry.start_km k)
                 (Some end_km) (Some ride_id) "completed") ∧
       driver_by_user_id (user_id_of u) db' = Some (di, drv') ∧
       Driver.current_km_reading drv' = end_km) ∧
  (∀ entry_id j k0 end_km0,
     km_entry_by_id entry_id db = Some (j, k0) →
     end_km0 < KilometerEntry.start_km k0 →
     sqlite_integer end_km0 →
     ∃ db',
       complete_km_entry entry_id end_km0 db = Ok db' ∧
       km_entries db' !! j
       = Some (KilometerEntry.mk entry_id (KilometerEntry.driver_id k0)
                 (KilometerEntry.start_km k0) (Some end_km0)
                 (KilometerEntry.ride_id k0) "completed") ∧
       ∀ dj drv0,
         driver_by_id (KilometerEntry.driver_id k0) db = Some (dj, drv0) →
         ∃ drv', driver_by_id (KilometerEntry.driver_id k0) db'
                 = Some (dj, drv') ∧
                 Driver.current_km_reading drv' = end_km0) ∧
  (∀ ride_id end_km dur u now di ri drv ride,
     driver_by_user_id (user_id_of u) db = Some (di, drv) →
     ride_by_id ride_id db = Some (ri, ride) →
     Ride.driver_id ride = Some (Driver.id drv) →
     Ride.status ride = "in_progress" →
     ¬ sqlite_integer end_km →
     complete_ride ride_id end_km dur u now db = Err OverflowError) ∧
  (∀ entry_id j k0 end_km0,
     km_entry_by_id entry_id db = Some (j, k0) →
     ¬ sqlite_integer end_km0 →
     complete_km_entry entry_id end_km0 db = Err OverflowError).
Proof.
  split_and!.
  - intros ride_id end_km dur u now di ri ki drv ride k
      Hd Hr Hdid Hst Hk Hlt Hkm Hdur Htot.
    unfold complete_ride. rewrite Hd, Hr, Hk.
    rewrite !decide_False by (intros []; done).
    eexists _, _. split; [done|]. simpl.
    apply list_find_Some in Hk as (Hki & [Hrid Hks] & _).
    split_and!.
    + rewrite list_lookup_alter_eq, Hki. simpl. by rewrite <- Hrid.
    + unfold driver_by_user_id at 1. simpl.
      by apply driver_by_user_id_alter.
    + done.
  - intros entry_id j k0 end_km0 Hj Hlt0 Hkm0.
    unfold complete_km_entry. rewrite Hj.
    rewrite decide_False by (intros []; done).
    apply list_find_Some in Hj as (Hj & Hid & _).
    destruct (driver_by_id (KilometerEntry.driver_id k0) db)
      as [[dj drv0]|] eqn:Hd0.
    + eexists. split; [done|]. simpl. split.
      * rewrite list_lookup_alter_eq, Hj. simpl. by rewrite <- Hid.
      * intros ?? [= <- <-]. eexists. split.
        -- unfold driver_by_id at 1. simpl. by apply driver_by_id_alter.
        -- done.
    + eexists. split; [done|]. simpl. split; [|done].
      rewrite list_lookup_alter_eq, Hj. simpl. by rewrite <- Hid.
  - intros ride_id end_km dur u now di ri drv ride Hd Hr Hdid Hst Hkm.
    unfold complete_ride. rewrite Hd, Hr.
    rewrite !decide_False by (intros []; done).
    by rewrite decide_True by (by intros (? & _)).
  - intros entry_id j k0 end_km0 Hj Hkm0.
    unfold complete_km_entry. rewrite Hj. by rewrite decide_True.
Qed.

Lemma completion_accepts_lower_reading_witness :
  (90 < KilometerEntry.start_km
          (KilometerEntry.mk "k1" "d1" 100 None (Some "r1") "started")) ∧
  (∃ db' drv',
     complete_ride "r1" 90 None driver1 9 db_in_progress = Ok db' ∧
     km_entries db' !! 0%nat
     = Some (KilometerEntry.mk "k1" "d1" 100 (Some 90) (Some "r1")
               "completed") ∧
     driver_by_user_id "u1" db' = Some (0%nat, drv') ∧
     Driver.current_km_reading drv' = 90) ∧
  (∃ db',
     complete_km_entry "k0" 90 db_open_entry = Ok db' ∧
     km_entries db' !! 0%nat
     = Some (KilometerEntry.mk "k0" "d1" 100 (Some 90) None "completed")).
Proof.
  split; [done|].
  destruct (completion_accepts_lower_reading db_in_progress) as (H1 & _).
  destruct (completion_accepts_lower_reading db_open_entry) as (_ & H2 & _).
  destruct (H1 "r1" 90 None driver1 9 0%nat 0%nat 0%nat _ _
              (KilometerEntry.mk "k1" "d1" 100 None (Some "r1") "started")
              eq_refl eq_refl eq_refl eq_refl eq_refl
              ltac:(done) ltac:(by vm_compute) ltac:(done)
              ltac:(by vm_compute))
    as (db1 & drv' & ? & ? & ? & ?).
  destruct (H2 "k0" 0%nat
              (KilometerEntry.mk "k0" "d1" 100 None None "started") 90
              eq_refl ltac:(done) ltac:(by vm_compute))
    as (db2 & ? & ? & _).
  split; [by exists db1, drv'|by exists db2].
Defined.

(** C3 as stated fails: with the entry started at 100, completing the ride
    (or the entry) at 90 does not raise; the entry is closed with
    [end_km = 90], the driver's reading becomes 90 and the ride is
    [completed]. *)
Lemma lower_reading_not_rejected :
  km_entries db_in_progress
  = [KilometerEntry.mk "k1" "d1" 100 None (Some "r1") "started"] ∧
  (∃ db', complete_ride "r1" 90 None driver1 9 db_in_progress = Ok db' ∧
     km_entries db'
     = [KilometerEntry.mk "k1" "d1" 100 (Some 90) (Some "r1") "completed"] ∧
     Driver.current_km_reading <$> drivers db' = [90] ∧
     Ride.status <$> rides db' = ["completed"]) ∧
  (∃ db', complete_km_entry "k1" 90 db_in_progress = Ok db' ∧
     km_entries db'
     = [KilometerEntry.mk "k1" "d1" 100 (Some 90) (Some "r1") "completed"] ∧
     Driver.current_km_reading <$> drivers db' = [90]).
Proof. split; [done|]. split; eexists; by split_and!. Qed.

(** ** Opening odometer entries *)

Lemma commit_insert_fresh {A} (key : A → string) (row : A) (table : list A) :
  key row ∉ key <$> table → commit_insert key row table = Ok (table ++ [row]).
Proof. intros Hfresh. unfold commit_insert. by rewrite decide_False. Qed.

Lemma commit_insert_Ok {A} (key : A → string) (row : A) (table t' : list A) :
  commit_insert key row table = Ok t' →
  t' = table ++ [row] ∧ key row ∉ key <$> table.
Proof. unfold commit_insert. by case_decide; intros [= <-]. Qed.

Lemma create_km_entry_fresh (db : DB) (did : string) (start_km : Z)
    (rid : option string) (new_id : string) :
  new_id ∉ KilometerEntry.id <$> km_entries db →
  sqlite_integer start_km →
  ∃ db',
    create_km_entry did start_km rid new_id db = Ok db' ∧
    km_entries db'
    = km_entries db ++ [KilometerEntry.mk new_id did start_km None rid
                          "started"] ∧
    length (started_entries did db') = S (length (started_entries did db)).
Proof.
  intros Hfresh Hkm. unfold create_km_entry.
  rewrite decide_False by (intros []; done).
  rewrite commit_insert_fresh by done.
  destruct (driver_by_id did db) as [[dj drv0]|];
    (eexists; split; [done|]; split; [done|]);
    unfold started_entries; simpl; rewrite filter_app, length_app;
    rewrite filter_cons_True by done; simpl; lia.
Qed.

(** C4, as the code has it. Neither handler looks for an open entry.  For a
    driver who already has a [started] entry, [start_ride] on the driver's
    [assigned] ride commits and appends one more [started] entry for that
    driver; and for any driver id that already has a [started] entry,
    whether or not a ride is involved, [create_km_entry] commits and appends
    one more.  The new entry id is unused and the reading is such as an
    Integer column holds; a reading outside that range makes the commit
    raise [OverflowError], and nothing is written. *)
Theorem open_entry_not_checked (db : DB) :
  (∀ ride_id start_km u new_id now di ri drv ride,
     driver_by_user_id (user_id_of u) db = Some (di, drv) →
     ride_by_id ride_id db = Some (ri, ride) →
     Ride.driver_id ride = Some (Driver.id drv) →
     Ride.status ride = "assigned" →
     started_entries (Driver.id drv) db ≠ [] →
     new_id ∉ KilometerEntry.id <$> km_entries db →
     sqlite_integer start_km →
     ∃ db',
       start_ride ride_id start_km u new_id now db = Ok db' ∧
       km_entries db'
       = km_entries db ++ [KilometerEntry.mk new_id (Driver.id drv) start_km
                             None (Some ride_id) "started"] ∧
       length (started_entries (Driver.id drv) db')
       = S (length (started_entries (Driver.id drv) db))) ∧
  (∀ did0 start_km0 rid0 new_id0,
     started_entries did0 db ≠ [] →
     new_id0 ∉ KilometerEntry.id <$> km_entries db →
     sqlite_integer start_km0 →
     ∃ db',
       create_km_entry did0 start_km0 rid0 new_id0 db = Ok db' ∧
       km_entries db'
       = km_entries db ++ [KilometerEntry.mk new_id0 did0 start_km0 None rid0
                             "started"] ∧
       length (started_entries did0 db')
       = S (length (started_entries did0 db))) ∧
  (∀ ride_id start_km u new_id now di ri drv ride,
     driver_by_user_id (user_id_of u) db = Some (di, drv) →
     ride_by_id ride_id db = Some (ri, ride) →
     Ride.driver_id ride = Some (Driver.id drv) →
     Ride.status ride = "assigned" →
     ¬ sqlite_integer start_km →
     start_ride ride_id start_km u new_id now db = Err OverflowError) ∧
  (∀ did0 start_km0 rid0 new_id0,
     ¬ sqlite_integer start_km0 →
     create_km_entry did0 start_km0 rid0 new_id0 db = Err OverflowError).
Proof.
  split_and!.
  - intros ride_id start_km u new_id now di ri drv ride
      Hd Hr Hdid Hst _ Hfresh Hkm.
    unfold start_ride. rewrite Hd, Hr.
    rewrite !decide_False by (intros []; done).
    rewrite commit_insert_fresh by done.
    eexists. split; [done|]. split; [done|].
    unfold started_entries. simpl. rewrite filter_app, length_app.
    rewrite filter_cons_True by done. simpl. lia.
  - intros did0 start_km0 rid0 new_id0 _ Hfresh0 Hkm0.
    by apply create_km_entry_fresh.
  - intros ride_id start_km u new_id now di ri drv ride Hd Hr Hdid Hst Hkm.
    unfold start_ride. rewrite Hd, Hr.
    rewrite !decide_False by (intros []; done). by rewrite decide_True.
  - intros did0 start_km0 rid0 new_id0 Hkm0. unfold create_km_entry.
    by rewrite decide_True.
Qed.

Lemma open_entry_not_checked_witness :
  started_entries "d1" db_open_entry
  = [KilometerEntry.mk "k0" "d1" 100 None None "started"] ∧
  (∃ db', start_ride "r1" 200 driver1 "k1" 3 db_open_entry = Ok db' ∧
     length (started_entries "d1" db') = 2%nat) ∧
  (∃ db', create_km_entry "d1" 300 None "k2" db_open_entry = Ok db' ∧
     length (started_entries "d1" db') = 2%nat).
Proof.
  split; [reflexivity|].
  assert (Hfresh : ∀ i : string, i ≠ "k0" →
            i ∉ KilometerEntry.id <$> km_entries db_open_entry).
  { intros i Hi. simpl. by intros [->|[]%elem_of_nil]%elem_of_cons. }
  destruct (open_entry_not_checked db_open_entry) as (H1 & H2 & _ & _).
  destruct (H1 "r1" 200 driver1 "k1" 3 0%nat 0%nat _ _
              eq_refl eq_refl eq_refl eq_refl
              ltac:(done) (Hfresh "k1" ltac:(done)) ltac:(by vm_compute))
    as (db1 & ? & _ & ?).
  destruct (H2 "d1" 300 None "k2"
              ltac:(done) (Hfresh "k2" ltac:(done)) ltac:(by vm_compute))
    as (db2 & ? & _ & ?).
  split; [by exists db1|by exists db2].
Defined.

(** C4 as stated fails: driver [d1] has the open entry [k0]; starting the
    ride and opening a standalone entry both commit, and [d1] then has two
    [started] entries. *)
Lemma second_open_entry_created :
  KilometerEntry.status <$> started_entries "d1" db_open_entry = ["started"] ∧
  (∃ db', start_ride "r1" 200 driver1 "k1" 3 db_open_entry = Ok db' ∧
     KilometerEntry.id <$> started_entries "d1" db' = ["k0"; "k1"]) ∧
  (∃ db', create_km_entry "d1" 300 None "k2" db_open_entry = Ok db' ∧
     KilometerEntry.id <$> started_entries "d1" db' = ["k0"; "k2"]).
Proof. split; [done|]. split; eexists; by split_and!. Qed.

(** ** Going online and offline *)

(** C9. [update_my_status_body] asked for the value the flag already has
    commits and leaves the attendance table as it is: no session is opened,
    none is closed.  Asked twice in a row to go online, for a driver who was
    offline (the session id being unused), the first call appends one
    [active] session for the driver and the second appends nothing: exactly
    one session has been created; and whatever the flag was, if the driver's
    sessions matched it before, the driver has exactly one [active] session
    after the two calls.  The handlers that only write the flag never touch
    the attendance table. *)
Theorem set_online_idempotent (db : DB) (u : User) (i : nat) (drv : Driver.t)
    (id1 id2 : string) (t1 t1' t2 t2' : Z) :
  driver_by_user_id (user_id_of u) db = Some (i, drv) →
  (∃ db', update_my_status_body (Some (Driver.is_online drv)) u id1 t1 t1' db
          = Ok db' ∧
          attendance db' = attendance db) ∧
  (Driver.is_online drv = false →
   id1 ∉ DriverAttendance.id <$> attendance db →
   ∃ db1 db2,
     update_my_status_body (Some true) u id1 t1 t1' db = Ok db1 ∧
     update_my_status_body (Some true) u id2 t2 t2' db1 = Ok db2 ∧
     attendance db1
     = attendance db ++ [DriverAttendance.mk id1 (Driver.id drv) (date_of t1)
                           t1 None None "active"] ∧
     attendance db2 = attendance db1 ∧
     length (active_sessions (Driver.id drv) db2)
     = S (length (active_sessions (Driver.id drv) db))) ∧
  (sessions_match_flag db →
   id1 ∉ DriverAttendance.id <$> attendance db →
   ∃ db1 db2,
     update_my_status_body (Some true) u id1 t1 t1' db = Ok db1 ∧
     update_my_status_body (Some true) u id2 t2 t2' db1 = Ok db2 ∧
     attendance db2 = attendance db1 ∧
     length (active_sessions (Driver.id drv) db2) = 1%nat) ∧
  (∀ b now db', update_my_status b u now db = Ok db' →
                attendance db' = attendance db) ∧
  (∀ b now db', update_driver_status (Driver.id drv) b now db = Ok db' →
                attendance db' = attendance db).
Proof.
  intros Hd.
  assert (Hsame : ∀ db0 drv0 j1 s1 s1',
            driver_by_user_id (user_id_of u) db0 = Some (i, drv0) →
            update_my_status_body (Some (Driver.is_online drv0)) u j1 s1 s1' db0
            = Ok (with_drivers
                    (alter (Driver.set_is_online (Driver.is_online drv0) s1') i)
                    db0)).
  { intros db0 drv0 j1 s1 s1' Hd0. unfold update_my_status_body. rewrite Hd0.
    by destruct (Driver.is_online drv0). }
  assert (Htwice :
    Driver.is_online drv = false →
    id1 ∉ DriverAttendance.id <$> attendance db →
    ∃ db1 db2,
      update_my_status_body (Some true) u id1 t1 t1' db = Ok db1 ∧
      update_my_status_body (Some true) u id2 t2 t2' db1 = Ok db2 ∧
      attendance db1
      = attendance db ++ [DriverAttendance.mk id1 (Driver.id drv) (date_of t1)
                            t1 None None "active"] ∧
      attendance db2 = attendance db1 ∧
      length (active_sessions (Driver.id drv) db2)
      = S (length (active_sessions (Driver.id drv) db))).
  { intros Hoff Hfresh.
    assert (update_my_status_body (Some true) u id1 t1 t1' db
            = Ok (with_drivers (alter (Driver.set_is_online true t1') i)
                    (with_attendance
                       (λ _, attendance db
                             ++ [DriverAttendance.mk id1 (Driver.id drv)
                                   (date_of t1) t1 None None "active"]) db)))
      as E1.
    { unfold update_my_status_body. rewrite Hd, Hoff. simpl.
      by rewrite commit_insert_fresh. }
    eexists _, _. split; [exact E1|].
    unfold update_my_status_body at 1. unfold driver_by_user_id at 1. simpl.
    erewrite driver_by_user_id_alter; [|done|done]. simpl.
    split; [done|]. split; [done|]. split; [done|].
    unfold active_sessions. simpl. rewrite filter_app, length_app.
    rewrite filter_cons_True by done. simpl. lia. }
  split_and!.
  - rewrite (Hsame db drv) by done. by eexists.
  - exact Htwice.
  - intros [_ Hall] Hfresh.
    pose proof Hd as (Hi & _ & _)%list_find_Some.
    pose proof (Forall_lookup_1 _ _ _ _ Hall Hi) as Hcount. simpl in Hcount.
    destruct (Driver.is_online drv) eqn:Hon.
    + pose proof (Hsame db drv id1 t1 t1' Hd) as E1. rewrite Hon in E1.
      eexists _, _. split; [exact E1|].
      assert (driver_by_user_id (user_id_of u)
                (with_drivers (alter (Driver.set_is_online true t1') i) db)
              = Some (i, Driver.set_is_online true t1' drv)) as Hd1.
      { unfold driver_by_user_id at 1. simpl.
        by apply driver_by_user_id_alter. }
      pose proof (Hsame _ _ id2 t2 t2' Hd1) as E2.
      split; [exact E2|]. by split.
    + destruct (Htwice eq_refl Hfresh) as (db1 & db2 & ? & ? & _ & ? & Hlen).
      exists db1, db2. split_and!; [done..|]. by rewrite Hlen, Hcount.
  - intros b now db'. unfold update_my_status. rewrite Hd. by intros [= <-].
  - intros b now db'. unfold update_driver_status.
    destruct (driver_by_id _ _) as [[??]|]; [|done]. by intros [= <-].
Qed.

Lemma set_online_idempotent_witness :
  attendance db_startup = [] ∧
  (∃ db', update_my_status_body (Some false) driver1 "a1" 5 6 db_startup
          = Ok db' ∧ attendance db' = []) ∧
  (∃ db1 db2,
     update_my_status_body (Some true) driver1 "a1" 5 6 db_startup = Ok db1 ∧
     update_my_status_body (Some true) driver1 "a2" 7 8 db1 = Ok db2 ∧
     attendance db2
     = [DriverAttendance.mk "a1" "d1" 0 5 None None "active"] ∧
     length (active_sessions "d1" db2) = 1%nat).
Proof.
  split; [reflexivity|].
  destruct (set_online_idempotent db_startup driver1 0
              (Driver.mk "d1" "u1" 1250 false 45230 0) "a1" "a2" 5 6 7 8
              eq_refl) as ((db' & ? & ?) & H & H' & _).
  destruct (H eq_refl ltac:(by intros ?%elem_of_nil))
    as (db1 & db2 & E & E' & E1 & E2 & _).
  destruct (H' ltac:(split; [apply NoDup_singleton|by repeat constructor])
               ltac:(by intros ?%elem_of_nil))
    as (db1' & db2' & F & F' & _ & ?).
  split; [by exists db'|].
  exists db1, db2. split_and!; [done|done|by rewrite E2, E1|].
  rewrite E in F. injection F as <-. rewrite E' in F'. by injection F' as <-.
Defined.

(** ** Start, then complete *)

(** C2, on the code. After [start_ride] with [start_km] has committed,
    [complete_ride] with [end_km] by the same driver commits; the driver's
    reading is [end_km], and when no other [started] entry carried the ride's
    id the entry opened by the start is closed with both readings.  The
    ride's [distance], however, is 0 whatever the readings: the handler looks
    for [start_km] on the ride row, which has no such attribute, and never
    reads the entry.  The integers that the completion writes ([end_km],
    the duration, the driver's ride count plus one) are such as an Integer
    column holds. *)
Theorem start_then_complete (db db1 : DB) (ride_id : string)
    (start_km end_km : Z) (u : User) (kid : string) (t1 t2 : Z)
    (dur : option Z) :
  start_ride ride_id start_km u kid t1 db = Ok db1 →
  sqlite_integer end_km →
  sqlite_integer_opt dur →
  (∀ di drv, driver_by_user_id (user_id_of u) db = Some (di, drv) →
             sqlite_integer (Driver.total_rides drv + 1)) →
  ∃ db2 ri ride2 di drv2,
    complete_ride ride_id end_km dur u t2 db1 = Ok db2 ∧
    ride_by_id ride_id db2 = Some (ri, ride2) ∧
    Ride.status ride2 = "completed" ∧
    Ride.distance ride2 = 0 ∧
    driver_by_user_id (user_id_of u) db2 = Some (di, drv2) ∧
    Driver.current_km_reading drv2 = end_km ∧
    (started_km_entry_of_ride ride_id db = None →
     km_entries db2
     = km_entries db ++ [KilometerEntry.mk kid (Driver.id drv2) start_km
                           (Some end_km) (Some ride_id) "completed"]).
Proof.
  unfold start_ride. intros Hstart Hend Hdur Htot.
  destruct (driver_by_user_id (user_id_of u) db) as [[di drv]|] eqn:Hd;
    [|done].
  destruct (ride_by_id ride_id db) as [[ri ride]|] eqn:Hr; [|done].
  specialize (Htot _ _ eq_refl).
  case_decide as Hdid; [done|]. case_decide as Hst; [done|].
  case_decide as Hkm; [done|].
  destruct (commit_insert _ _ _) as [kms|] eqn:Hins; [|done].
  apply commit_insert_Ok in Hins as [-> _]. injection Hstart as <-.
  unfold complete_ride.
  unfold driver_by_user_id at 1. simpl.
  erewrite driver_by_user_id_alter; [|done|done].
  unfold ride_by_id at 1. simpl.
  erewrite ride_by_id_alter; [|done|done]. simpl.
  rewrite !decide_False by (intros []; done).
  set (new := KilometerEntry.mk kid (Driver.id drv) start_km None
                (Some ride_id) "started").
  unfold started_km_entry_of_ride at 1. simpl.
  destruct (started_km_entry_of_ride ride_id db) as [[ki k]|] eqn:Hk.
  - erewrite list_find_snoc_Some by exact Hk.
    eexists _, _, _, _, _. split; [done|]. simpl. split_and!.
    + unfold ride_by_id. simpl. rewrite list_alter_alter_eq.
      by apply ride_by_id_alter.
    + done.
    + done.
    + unfold driver_by_user_id. simpl. rewrite list_alter_alter_eq.
      by apply driver_by_user_id_alter.
    + done.
    + done.
  - erewrite list_find_snoc_None; [|exact Hk|done].
    eexists _, _, _, _, _. split; [done|]. simpl. split_and!.
    + unfold ride_by_id. simpl. rewrite list_alter_alter_eq.
      by apply ride_by_id_alter.
    + done.
    + done.
    + unfold driver_by_user_id. simpl. rewrite list_alter_alter_eq.
      by apply driver_by_user_id_alter.
    + done.
    + intros _. rewrite <- (Nat.add_0_r (length (km_entries db))).
      by rewrite alter_app_r.
Qed.

Lemma start_then_complete_witness :
  start_ride "r1" 100 driver1 "k1" 3 db_assigned = Ok db_in_progress ∧
  ∃ db2 ri ride2 di drv2,
    complete_ride "r1" 150 (Some 12) driver1 9 db_in_progress = Ok db2 ∧
    ride_by_id "r1" db2 = Some (ri, ride2) ∧
    Ride.status ride2 = "completed" ∧
    Ride.distance ride2 = 0 ∧
    driver_by_user_id "u1" db2 = Some (di, drv2) ∧
    Driver.current_km_reading drv2 = 150.
Proof.
  assert (start_ride "r1" 100 driver1 "k1" 3 db_assigned = Ok db_in_progress)
    as E by (vm_compute; reflexivity).
  split; [exact E|].
  destruct (start_then_complete db_assigned db_in_progress "r1" 100 150
              driver1 "k1" 3 9 (Some 12) E
              ltac:(by vm_compute) ltac:(by vm_compute)
              ltac:(by intros ?? [= <- <-]; vm_compute))
    as (db2 & ri & ride2 & di & drv2 & ? & ? & ? & ? & ? & ? & _).
  exists db2, ri, ride2, di, drv2. repeat split; assumption.
Defined.

(** The round trip of C2 on a concrete database: the readings 100 and 150
    leave [distance = 0], not 50. *)
Lemma round_trip_distance_is_zero :
  ∃ db1 db2,
    start_ride "r1" 100 driver1 "k1" 3 db_assigned = Ok db1 ∧
    complete_ride "r1" 150 (Some 12) driver1 9 db1 = Ok db2 ∧
    Ride.distance <$> rides db2 = [0] ∧
    Ride.distance <$> rides db2 ≠ [50] ∧
    Driver.current_km_reading <$> drivers db2 = [150] ∧
    km_entries db2
    = [KilometerEntry.mk "k1" "d1" 100 (Some 150) (Some "r1") "completed"].
Proof. eexists _, _. by split_and!. Qed.

(** ** Attendance sessions against the online flag *)

Section FilterAlter.
Context {A : Type} (P : A → Prop) `{!∀ x, Decision (P x)}.

Lemma length_filter_alter (f : A → A) (l : list A) (j : nat) (a : A) :
  l !! j = Some a →
  (length (filter P (alter f j l)) + (if decide (P a) then 1 else 0)
   = length (filter P l) + (if decide (P (f a)) then 1 else 0))%nat.
Proof.
  revert j. induction l as [|x l IH]; intros [|j] Hj; simplify_eq/=.
  - rewrite !filter_cons. repeat case_decide; simpl; lia.
  - specialize (IH _ Hj). rewrite !filter_cons.
    destruct (decide (P x)); simpl; lia.
Qed.

Lemma filter_nil_of_find_None (l : list A) :
  list_find P l = None → filter P l = [].
Proof.
  intros HN%list_find_None. induction HN as [|x l Hx _ IH]; [done|].
  by rewrite filter_cons_False.
Qed.
End FilterAlter.

Lemma driver_ids_alter (f : Driver.t → Driver.t) (i : nat)
    (l : list Driver.t) :
  (∀ d, Driver.id (f d) = Driver.id d) →
  Driver.id <$> alter f i l = Driver.id <$> l.
Proof.
  intros Hf. rewrite (list_fmap_alter _ f (λ x, x)).
  - by apply list_alter_id.
  - apply Forall_forall. intros d _. apply Hf.
Qed.

(** Handlers that leave the attendance table alone and change no driver's
    id or flag keep the bookkeeping invariant. *)
Lemma sessions_match_flag_frame (db db' : DB) (f : Driver.t → Driver.t)
    (i : nat) :
  drivers db' = alter f i (drivers db) →
  attendance db' = attendance db →
  (∀ d, Driver.id (f d) = Driver.id d) →
  (∀ d, Driver.is_online (f d) = Driver.is_online d) →
  sessions_match_flag db → sessions_match_flag db'.
Proof.
  intros Hdrv Hatt Hid Hon [Hnd Hall]. unfold sessions_match_flag.
  unfold active_sessions in *. rewrite Hdrv, Hatt. split.
  - by rewrite driver_ids_alter.
  - apply Forall_alter; [done|]. intros d _ Hd. by rewrite Hid, Hon.
Qed.

Lemma sessions_match_flag_same (db db' : DB) :
  drivers db' = drivers db → attendance db' = attendance db →
  sessions_match_flag db → sessions_match_flag db'.
Proof.
  intros Hdrv Hatt. apply (sessions_match_flag_frame db db' (λ d, d) 0);
    [|done..]. rewrite Hdrv. symmetry. by apply list_alter_id.
Qed.

(** The flag of one driver is written and the driver's sessions are brought
    in line with it. *)
Lemma sessions_match_flag_step (db db' : DB) (i : nat) (drv : Driver.t)
    (b : bool) (t : Z) :
  sessions_match_flag db →
  drivers db !! i = Some drv →
  drivers db' = alter (Driver.set_is_online b t) i (drivers db) →
  length (active_sessions (Driver.id drv) db') = (if b then 1 else 0)%nat →
  (∀ did, did ≠ Driver.id drv →
     length (active_sessions did db') = length (active_sessions did db)) →
  sessions_match_flag db'.
Proof.
  intros [Hnd Hall] Hi Hdrv Hown Hothers. split.
  - rewrite Hdrv. by rewrite driver_ids_alter.
  - apply Forall_lookup. intros k d Hk.
    rewrite Hdrv, list_lookup_alter in Hk. case_decide as Hik.
    + subst k. rewrite Hi in Hk. by simplify_eq/=.
    + assert (Driver.id d ≠ Driver.id drv) as Hne.
      { intros Heq. apply Hik.
        apply (NoDup_lookup _ i k (Driver.id drv) Hnd).
        - by rewrite list_lookup_fmap, Hi.
        - by rewrite list_lookup_fmap, Hk, <- Heq. }
      rewrite Hothers by done.
      by apply (Forall_lookup_1 _ _ _ _ Hall Hk).
Qed.

Lemma update_my_status_body_preserves (db db' : DB) (body : option bool)
    (u : User) (new_id : string) (now now2 : Z) :
  sessions_match_flag db →
  update_my_status_body body u new_id now now2 db = Ok db' →
  sessions_match_flag db'.
Proof.
  intros Hinv. unfold update_my_status_body.
  destruct body as [b|]; [|done].
  destruct (driver_by_user_id (user_id_of u) db) as [[i drv]|] eqn:Hd; [|done].
  pose proof Hd as (Hi & _ & _)%list_find_Some.
  pose proof (Forall_lookup_1 _ _ _ _ (proj2 Hinv) Hi) as Hcount.
  simpl in Hcount.
  destruct b, (Driver.is_online drv) eqn:Hon; simpl.
  - (* online already *)
    intros [= <-]. eapply sessions_match_flag_step; eauto.
  - (* going online *)
    destruct (commit_insert _ _ _) as [att|] eqn:Hins; [|done].
    apply commit_insert_Ok in Hins as [-> _]. intros [= <-].
    eapply sessions_match_flag_step; eauto.
    + unfold active_sessions in *. simpl. rewrite filter_app, length_app.
      rewrite filter_cons_True by done. rewrite Hcount. done.
    + intros did Hne. unfold active_sessions. simpl.
      rewrite filter_app, length_app.
      rewrite filter_cons_False by (by intros [? _]). simpl. lia.
  - (* going offline *)
    destruct (active_attendance_of (Driver.id drv) db) as [[j a]|] eqn:Hact.
    + intros [= <-].
      apply list_find_Some in Hact as (Hj & [Hdrv Hst] & _).
      eapply sessions_match_flag_step; eauto.
      * unfold active_sessions in *. simpl.
        pose proof (length_filter_alter
                      (λ a, DriverAttendance.driver_id a = Driver.id drv
                            ∧ DriverAttendance.status a = "active")
                      (DriverAttendance.close now
                         (hours_between (DriverAttendance.start_time a) now))
                      _ _ _ Hj) as Hlen.
        rewrite decide_True in Hlen by done.
        rewrite decide_False in Hlen by (by intros [_ ?]). lia.
      * intros did Hne. unfold active_sessions. simpl.
        pose proof (length_filter_alter
                      (λ a, DriverAttendance.driver_id a = did
                            ∧ DriverAttendance.status a = "active")
                      (DriverAttendance.close now
                         (hours_between (DriverAttendance.start_time a) now))
                      _ _ _ Hj) as Hlen.
        rewrite decide_False in Hlen by (intros [? _]; congruence).
        rewrite decide_False in Hlen by (by intros [_ ?]). lia.
    + intros [= <-].
      eapply sessions_match_flag_step; eauto.
      unfold active_sessions. simpl.
      by rewrite (filter_nil_of_find_None _ _ Hact).
  - (* offline already *)
    intros [= <-]. eapply sessions_match_flag_step; eauto.
Qed.

Lemma handle_preserves (rq : request) (db db' : DB) :
  writes_flag_only rq = false →
  sessions_match_flag db → handle rq db = Ok db' → sessions_match_flag db'.
Proof.
  intros Hrq Hinv.
  destruct rq; try discriminate Hrq; simpl.
  - by apply update_my_status_body_preserves.
  - unfold create_km_entry. intros Hok. open_handler.
    + by eapply sessions_match_flag_frame.
    + by eapply sessions_match_flag_same.
  - unfold complete_km_entry. intros Hok. open_handler.
    + by eapply sessions_match_flag_frame.
    + by eapply sessions_match_flag_same.
  - unfold create_leave_request. intros Hok. open_handler;
      by eapply sessions_match_flag_same.
  - unfold review_leave_request. intros Hok. open_handler.
    by eapply sessions_match_flag_same.
  - unfold create_ride. intros Hok. open_handler.
    by eapply sessions_match_flag_same.
  - unfold update_ride_status. intros Hok. open_handler;
      by eapply sessions_match_flag_same.
  - unfold assign_ride_to_driver. intros Hok. open_handler.
    by eapply sessions_match_flag_same.
  - unfold start_ride. intros Hok. open_handler.
    by eapply sessions_match_flag_frame.
  - unfold complete_ride. intros Hok. open_handler;
      by eapply sessions_match_flag_frame.
Qed.

Lemma serve_all_preserves (rqs : list request) (db : DB) :
  Forall (λ rq, writes_flag_only rq = false) rqs →
  sessions_match_flag db → sessions_match_flag (serve_all db rqs).
Proof.
  intros Hrqs. revert db.
  induction Hrqs as [|rq rqs Hrq _ IH]; intros db Hinv; [done|].
  simpl. apply IH. unfold serve.
  destruct (handle rq db) as [db'|e] eqn:Hh; simpl; [|done].
  by eapply handle_preserves.
Qed.

Lemma sessions_match_flag_at_most_one (db : DB) :
  sessions_match_flag db → at_most_one_active db.
Proof.
  intros [_ Hall]. unfold at_most_one_active.
  eapply Forall_impl; [exact Hall|]. intros d Hd. simpl in Hd.
  rewrite Hd. destruct (Driver.is_online d); lia.
Qed.

Lemma sessions_match_flag_agrees (db : DB) :
  sessions_match_flag db → online_agrees db.
Proof.
  intros [_ Hall]. unfold online_agrees.
  eapply Forall_impl; [exact Hall|]. intros d Hd. simpl in Hd.
  destruct (active_sessions (Driver.id d) db), (Driver.is_online d);
    simpl in Hd; split; (done || lia).
Qed.

Lemma sessions_match_flag_startup (u d : string) (now : Z) :
  sessions_match_flag (startup_event u d now).
Proof.
  split; simpl.
  - apply NoDup_singleton.
  - by repeat constructor.
Qed.

(** C5, as the code has it. Starting from a database in which every driver
    has one active session when online and none when offline (the database
    [startup_event] builds is one), any sequence of requests other than
    [update_driver_status] and [update_my_status] leads to a database in
    which every driver has at most one [active] attendance session.  Nothing
    of the kind is kept for [started] kilometer entries: in the database
    reached, [create_km_entry] with an unused id and a reading that an
    Integer column holds commits, and the driver named has one more
    [started] entry than before. *)
Theorem one_active_session_kept (db0 : DB) (rqs : list request) :
  sessions_match_flag db0 →
  Forall (λ rq, writes_flag_only rq = false) rqs →
  at_most_one_active (serve_all db0 rqs) ∧
  (∀ did km rid new_id,
     new_id ∉ KilometerEntry.id <$> km_entries (serve_all db0 rqs) →
     sqlite_integer km →
     length (started_entries did
               (serve (serve_all db0 rqs) (CreateKmEntry did km rid new_id)))
     = S (length (started_entries did (serve_all db0 rqs)))).
Proof.
  intros Hinv Hrqs. split.
  - by apply sessions_match_flag_at_most_one, serve_all_preserves.
  - intros did km rid new_id Hfresh Hkm. unfold serve. simpl.
    destruct (create_km_entry_fresh _ did km rid new_id Hfresh Hkm)
      as (db' & -> & _ & Hlen).
    exact Hlen.
Qed.

Lemma one_active_session_kept_witness :
  sessions_match_flag db_startup ∧
  at_most_one_active
    (serve_all db_startup
       [UpdateMyStatusBody (Some true) driver1 "a1" 1 2;
        UpdateMyStatusBody (Some true) driver1 "a2" 3 4;
        UpdateMyStatusBody (Some false) driver1 "a3" 5 6;
        CreateKmEntry "d1" 100 None "k1";
        UpdateMyStatusBody (Some true) driver1 "a4" 7 8]).
Proof.
  assert (sessions_match_flag db_startup) as Hstart.
  { split; [apply NoDup_singleton|by repeat constructor]. }
  split; [exact Hstart|].
  apply one_active_session_kept; [exact Hstart|]. by repeat constructor.
Defined.

(** C5 as stated fails: two [create_km_entry] requests for the sample driver
    both commit and leave that driver with two [started] entries. *)
Lemma two_started_entries_reachable :
  ∃ db, reachable db ∧
        KilometerEntry.id <$> started_entries "d1" db = ["k1"; "k2"] ∧
        ¬ at_most_one_started db.
Proof.
  exists (serve_all db_startup
            [CreateKmEntry "d1" 100 None "k1";
             CreateKmEntry "d1" 200 None "k2"]).
  split; [by eexists _, _, _, _|]. split; [done|].
  intros [H _]%Forall_cons_1. vm_compute in H. lia.
Qed.

(** Why C5 leaves out the two handlers that write the flag alone: with
    [update_driver_status] between two calls of [update_my_status_body] the
    sample driver has two [active] sessions. *)
Lemma two_active_sessions_through_flag :
  ∃ db, reachable db ∧
        DriverAttendance.id <$> active_sessions "d1" db = ["a1"; "a2"] ∧
        ¬ at_most_one_active db.
Proof.
  exists (serve_all db_startup
            [UpdateMyStatusBody (Some true) driver1 "a1" 1 2;
             UpdateDriverStatus "d1" false 3;
             UpdateMyStatusBody (Some true) driver1 "a2" 4 5]).
  split; [by eexists _, _, _, _|]. split; [done|].
  intros [H _]%Forall_cons_1. vm_compute in H. lia.
Qed.

(** What [update_my_status_body] does for the agreement of C6: if every
    driver has one active session when online and none when offline, the same
    holds after the call, and then [is_online] is true exactly for the
    drivers with an [active] session. *)
Lemma update_my_status_body_keeps_agreement (db db' : DB)
    (body : option bool) (u : User) (new_id : string) (now now2 : Z) :
  sessions_match_flag db →
  update_my_status_body body u new_id now now2 db = Ok db' →
  sessions_match_flag db' ∧ online_agrees db'.
Proof.
  intros Hinv Hok.
  assert (sessions_match_flag db') by by eapply update_my_status_body_preserves.
  split; [done|]. by apply sessions_match_flag_agrees.
Qed.

(** C6 on the code: [update_driver_status] and [update_my_status] write the
    flag and nothing else.  Either one puts the sample driver online while
    the attendance table is empty; and after going online through
    [update_my_status_body], [update_my_status] takes the driver offline
    while the session stays [active]. *)
Lemma flag_written_without_session :
  (∃ db, update_driver_status "d1" true 1 db_startup = Ok db ∧
         Driver.is_online <$> drivers db = [true] ∧ attendance db = [] ∧
         ¬ online_agrees db) ∧
  (∃ db, update_my_status true driver1 1 db_startup = Ok db ∧
         Driver.is_online <$> drivers db = [true] ∧ attendance db = [] ∧
         ¬ online_agrees db) ∧
  (∃ db1 db2,
     update_my_status_body (Some true) driver1 "a1" 1 2 db_startup = Ok db1 ∧
     online_agrees db1 ∧
     update_my_status false driver1 3 db1 = Ok db2 ∧
     Driver.is_online <$> drivers db2 = [false] ∧
     DriverAttendance.status <$> active_sessions "d1" db2 = ["active"] ∧
     ¬ online_agrees db2).
Proof.
  split_and!.
  - eexists. split; [reflexivity|]. split; [done|]. split; [done|].
    intros [[H _] _]%Forall_cons_1. by apply H.
  - eexists. split; [reflexivity|]. split; [done|]. split; [done|].
    intros [[H _] _]%Forall_cons_1. by apply H.
  - eexists _, _. split; [reflexivity|]. split.
    { apply (update_my_status_body_keeps_agreement db_startup _ (Some true)
               driver1 "a1" 1 2); [|reflexivity].
      split; [apply NoDup_singleton|by repeat constructor]. }
    split; [reflexivity|]. split; [done|]. split; [done|].
    intros [[_ H] _]%Forall_cons_1. by discriminate H.
Qed.

(** ** The sample databases are states of the running server *)

Lemma samples_reachable :
  reachable db_startup ∧
  reachable db_requested ∧ reachable db_assigned ∧ reachable db_in_progress ∧
  reachable db_in_progress_no_entry ∧ reachable db_completed ∧
  reachable db_open_entry ∧ reachable db_leave_approved.
Proof.
  split_and!.
  - by exists "u1", "d1", 0, [].
  - exists "u1", "d1", 0, to_requested. by vm_compute.
  - exists "u1", "d1", 0, to_assigned. by vm_compute.
  - exists "u1", "d1", 0, to_in_progress. by vm_compute.
  - exists "u1", "d1", 0, to_in_progress_no_entry. by vm_compute.
  - exists "u1", "d1", 0, to_completed. by vm_compute.
  - exists "u1", "d1", 0, to_open_entry. by vm_compute.
  - exists "u1", "d1", 0, to_leave_approved. by vm_compute.
Qed.

Example samples_as_intended :
  Ride.status <$> rides db_requested = ["requested"] ∧
  Ride.status <$> rides db_assigned = ["assigned"] ∧
  Ride.status <$> rides db_in_progress = ["in_progress"] ∧
  Ride.status <$> rides db_in_progress_no_entry = ["in_progress"] ∧
  km_entries db_in_progress_no_entry = [] ∧
  Ride.status <$> rides db_completed = ["completed"] ∧
  Ride.driver_id <$> rides db_open_entry = [Some "d1"] ∧
  Driver.is_online <$> drivers db_requested = [true].
Proof. by split_and!. Qed.

(** * Further properties of the handlers *)

(** ** What every request keeps *)

Lemma RideStatus_of_value_value (st : RideStatus) :
  RideStatus_of_value (RideStatus_value st) = Some st.
Proof. by destruct st. Qed.

Lemma RideStatus_of_value_Some (s : string) (st : RideStatus) :
  RideStatus_of_value s = Some st → RideStatus_value st = s.
Proof.
  unfold RideStatus_of_value. intros Hs.
  destruct (list_find _ _) as [[i m]|] eqn:Hf; [|done].
  apply list_find_Some in Hf as (_ & ? & _). by injection Hs as <-.
Qed.

Lemma create_manual_ride_try_Ok (rtt : float → string)
    (ps : list Passenger.t) (rd : gmap string json) (new_id : string)
    (now : Z) (db db' : DB) :
  create_manual_ride_try rtt ps rd new_id now db = Ok db' →
  ∃ pid did,
    manual_ride_accepted rtt ps rd new_id db pid did ∧
    db' = with_rides
            (λ _, rides db ++ [Ride.mk new_id pid (Some did) "assigned"
                                 (Some now) None None None None 0 0 None])
            db.
Proof.
  unfold create_manual_ride_try. intros Hok.
  destruct (list_find _ _) as [[??]|] eqn:Hmiss; [done|].
  apply list_find_None in Hmiss.
  rewrite !Forall_cons in Hmiss. destruct Hmiss as (Hp & Hd & Ha & Ho & _).
  destruct (rd !! "passenger_id") as [pv|] eqn:Epid; [|done].
  destruct (rd !! "driver_id") as [dv|] eqn:Edid; [|done].
  destruct (rd !! "pickup_address") as [av|] eqn:Ea; [|done].
  destruct (rd !! "dropoff_address") as [bv|] eqn:Eb; [|done].
  simpl in Hok.
  destruct (bound_text rtt pv) as [[pid|]|] eqn:Bp; [|done|done].
  simpl in Hok.
  destruct (list_find _ ps) as [[pi p]|] eqn:Hps; [|done].
  destruct (bound_text rtt dv) as [[did|]|] eqn:Bd; [|done|done].
  simpl in Hok.
  destruct (driver_by_id did db) as [[j drv]|] eqn:Hdrv; [|done].
  destruct (Driver.is_online drv) eqn:Hon; [|done]. simpl in Hok.
  destruct (bound_text rtt av) as [[a|]|] eqn:Ba;
    [|by destruct (bound_text rtt bv) as [[?|]|]|done].
  destruct (bound_text rtt bv) as [[b|]|] eqn:Bb; [|done|done].
  destruct (commit_insert _ _ _) as [rs|] eqn:Hins; [|done].
  apply commit_insert_Ok in Hins as [-> Hfresh]. simplify_eq.
  exists pid, did. split; [|done].
  exists pv, dv, av, bv, a, b, j, drv. split_and!; try done.
  apply list_find_Some in Hps as (Hpi & <- & _).
  apply list_elem_of_fmap_2. by eapply list_elem_of_lookup_2.
Qed.

Lemma create_manual_ride_try_accepted (rtt : float → string)
    (ps : list Passenger.t) (rd : gmap string json) (new_id : string)
    (now : Z) (db : DB) (pid did : string) :
  manual_ride_accepted rtt ps rd new_id db pid did →
  create_manual_ride_try rtt ps rd new_id now db
  = Ok (with_rides
          (λ _, rides db ++ [Ride.mk new_id pid (Some did) "assigned"
                               (Some now) None None None None 0 0 None])
          db).
Proof.
  intros (pv & dv & av & bv & a & b & j & drv & Hp & Hd & Ha & Hb & Bp & Bd
          & Ba & Bb & Hin & Hdrv & Hon & Hfresh).
  unfold create_manual_ride_try.
  assert (list_find (λ field, rd !! field = None)
            ["passenger_id"; "driver_id"; "pickup_address";
             "dropoff_address"] = None) as ->.
  { apply list_find_None. repeat constructor; congruence. }
  rewrite Hp, Hd, Ha, Hb. simpl. rewrite Bp, Bd, Ba, Bb. simpl.
  apply list_elem_of_fmap in Hin as (p & -> & Hin).
  destruct (list_find_elem_of (λ p0, Passenger.id p0 = Passenger.id p) ps p
              Hin eq_refl) as [[pi p'] ->].
  rewrite Hdrv, Hon. simpl. by rewrite commit_insert_fresh.
Qed.

Lemma create_manual_ride_Ok (lib : library) (ps : list Passenger.t)
    (rd : gmap string json) (new_id : string) (now : Z) (db db' : DB) :
  create_manual_ride (str_of_exception lib) (real_to_text lib) ps rd new_id
    now db = Ok db' →
  ∃ pid did,
    manual_ride_accepted (real_to_text lib) ps rd new_id db pid did ∧
    db' = with_rides
            (λ _, rides db ++ [Ride.mk new_id pid (Some did) "assigned"
                                 (Some now) None None None None 0 0 None])
            db.
Proof.
  unfold create_manual_ride. intros Hok.
  destruct (create_manual_ride_try _ _ _ _ _ _) as [db0|e] eqn:Htry;
    [|done].
  injection Hok as <-. by eapply create_manual_ride_try_Ok.
Qed.

Lemma handle_ride_statuses_valid (rq : request) (db db' : DB) :
  ride_statuses_valid db → handle rq db = Ok db' → ride_statuses_valid db'.
Proof.
  unfold ride_statuses_valid. intros Hv.
  destruct rq; simpl;
    [unfold update_driver_status|unfold update_my_status
    |unfold update_my_status_body|unfold create_km_entry
    |unfold complete_km_entry|unfold create_leave_request
    |unfold review_leave_request|unfold create_ride
    |unfold update_ride_status|unfold assign_ride_to_driver
    |unfold start_ride|unfold complete_ride];
    intros Hok; open_handler; simpl; try done;
    try (apply Forall_alter; [done|]; intros r _ _; by eexists).
  match goal with H : commit_insert _ _ _ = _ |- _ =>
    apply commit_insert_Ok in H as [-> _] end.
  apply Forall_app. split; [done|]. repeat constructor. by eexists.
Qed.

Lemma create_manual_ride_statuses_valid (lib : library)
    (ps : list Passenger.t) (rd : gmap string json) (new_id : string)
    (now : Z) (db db' : DB) :
  ride_statuses_valid db →
  create_manual_ride (str_of_exception lib) (real_to_text lib) ps rd new_id now db = Ok db' →
  ride_statuses_valid db'.
Proof.
  intros Hv (pid & did & _ & ->)
    %create_manual_ride_Ok.
  unfold ride_statuses_valid. simpl. apply Forall_app. split; [done|].
  repeat constructor. by eexists.
Qed.

Lemma serve_all_x_ride_statuses_valid (lib : library)
    (rqs : list request_x) (db : DB) :
  ride_statuses_valid db → ride_statuses_valid (serve_all_x lib db rqs).
Proof.
  revert db. induction rqs as [|rq rqs IH]; intros db Hv; [done|].
  simpl. apply IH. unfold serve_x.
  destruct (handle_x lib rq db) as [db'|e] eqn:Hh; simpl; [|done].
  destruct rq as [rq|ps rd i now]; simpl in Hh.
  - by eapply handle_ride_statuses_valid.
  - by eapply create_manual_ride_statuses_valid.
Qed.

Lemma db_ride_to_schema_valid (r : Ride.t) :
  is_Some (RideStatus_of_value (Ride.status r)) →
  ∃ s, db_ride_to_schema r = Some s ∧ RideSchema.id s = Ride.id r ∧
       RideStatus_value (RideSchema.status s) = Ride.status r.
Proof.
  intros [st Hst]. unfold db_ride_to_schema. rewrite Hst.
  eexists. split; [done|]. split; [done|]. simpl.
  by apply RideStatus_of_value_Some.
Qed.

Lemma rides_to_schema_valid (rs : list Ride.t) :
  Forall (λ r, is_Some (RideStatus_of_value (Ride.status r))) rs →
  ∃ l, rides_to_schema rs = Returns l ∧
       RideSchema.id <$> l = Ride.id <$> rs ∧
       (RideStatus_value ∘ RideSchema.status) <$> l = Ride.status <$> rs.
Proof.
  intros Hv.
  assert (∃ l, mapM db_ride_to_schema rs = Some l ∧
               RideSchema.id <$> l = Ride.id <$> rs ∧
               (RideStatus_value ∘ RideSchema.status) <$> l
               = Ride.status <$> rs) as (l & Hl & ? & ?).
  { induction Hv as [|r rs Hr _ IH]; [by exists []|].
    destruct IH as (l & Hl & Hid & Hs).
    destruct (db_ride_to_schema_valid r Hr) as (s & Hsr & Hsid & Hss).
    exists (s :: l). split.
    - apply mapM_Some_2. constructor; [done|]. by apply mapM_Some_1.
    - csimpl. by rewrite Hid, Hs, Hsid, Hss. }
  exists l. unfold rides_to_schema. by rewrite Hl.
Qed.

Lemma Forall_filter_keeps {A} (P Q : A → Prop) `{!∀ x, Decision (Q x)}
    (l : list A) :
  Forall P l → Forall P (filter Q l).
Proof.
  rewrite !Forall_forall. intros Hl x [_ Hx]%list_elem_of_filter. auto.
Qed.

Lemma rides_query_valid (p q : option string) (db : DB) :
  ride_statuses_valid db →
  Forall (λ r, is_Some (RideStatus_of_value (Ride.status r)))
         (rides_query p q db).
Proof.
  intros Hv. unfold rides_query.
  destruct (given p), (given q); repeat apply Forall_filter_keeps; done.
Qed.

(** X1. In every database the server reaches from its start-up state, by
    the handlers above and manual rides alike, every ride's status is a
    value of the [RideStatus] enumeration; so the three ride listings never
    die in [db_ride_to_schema]: [get_rides] and [get_pending_rides] answer
    with the rows of their query, in table order, and [get_assigned_rides]
    raises at most its own 404. *)
Theorem ride_listings_answer (lib : library) (u d : string)
    (now : Z) (rqs : list request_x) (p q : option string) (cu : User) :
  let db := serve_all_x lib (startup_event u d now) rqs in
  (∃ l, get_rides p q db = Returns l ∧
        RideSchema.id <$> l = Ride.id <$> rides_query p q db ∧
        (RideStatus_value ∘ RideSchema.status) <$> l
        = Ride.status <$> rides_query p q db) ∧
  (∃ l, get_pending_rides db = Returns l ∧
        RideSchema.id <$> l = Ride.id <$> pending_query db ∧
        Forall (λ s, RideSchema.status s = requested) l) ∧
  (get_assigned_rides cu db
   = Raises (HTTPException 404 "Driver profile not found")
   ∨ ∃ j drv l,
       driver_by_user_id (user_id_of cu) db = Some (j, drv) ∧
       get_assigned_rides cu db = Returns l ∧
       RideSchema.id <$> l = Ride.id <$> assigned_query (Driver.id drv) db).
Proof.
  intros db.
  assert (ride_statuses_valid db) as Hv.
  { apply serve_all_x_ride_statuses_valid. by constructor. }
  split_and!.
  - unfold get_rides. by apply rides_to_schema_valid, rides_query_valid.
  - unfold get_pending_rides.
    destruct (rides_to_schema_valid (pending_query db)) as (l & Hl & Hid & Hs).
    { by apply Forall_filter_keeps. }
    exists l. split; [done|]. split; [done|].
    assert (Forall (λ s, s = "requested") (Ride.status <$> pending_query db))
      as Hreq.
    { apply Forall_fmap, Forall_forall.
      by intros r [? _]%list_elem_of_filter. }
    rewrite <- Hs in Hreq. apply Forall_fmap in Hreq.
    eapply Forall_impl; [exact Hreq|]. intros s Hsv. simpl in Hsv.
    by destruct (RideSchema.status s).
  - unfold get_assigned_rides.
    destruct (driver_by_user_id (user_id_of cu) db) as [[j drv]|]; [|by left].
    right.
    destruct (rides_to_schema_valid (assigned_query (Driver.id drv) db))
      as (l & Hl & Hid & _).
    { by apply Forall_filter_keeps. }
    by exists j, drv, l.
Qed.

Lemma fmap_alter_kept {A B} (g : A → B) (f : A → A) (i : nat) (l : list A) :
  (∀ x, g (f x) = g x) → g <$> alter f i l = g <$> l.
Proof.
  intros Hf. rewrite (list_fmap_alter _ f (λ y, y)).
  - by apply list_alter_id.
  - apply Forall_forall. intros x _. apply Hf.
Qed.

(** An id that is not among the keys of a concrete table. *)
Ltac fresh_id :=
  let H := fresh in
  vm_compute; intros H;
  repeat (apply elem_of_cons in H as [H|H]; [discriminate H|]);
  by apply elem_of_nil in H.

(** Membership of a literal in a literal list, and its refutation. *)
Ltac member :=
  repeat first [by apply list_elem_of_here | apply list_elem_of_further].
Ltac not_member H :=
  repeat (apply elem_of_cons in H as [H|H]; [discriminate H|]);
  by apply elem_of_nil in H.

Ltac inserted :=
  repeat match goal with
         | H : commit_insert _ _ _ = Ok _ |- _ =>
             apply commit_insert_Ok in H as [-> _]
         end.

Lemma rows_kept_refl (db : DB) : rows_kept db db.
Proof. by repeat split. Qed.

Lemma rows_kept_trans (db1 db2 db3 : DB) :
  rows_kept db1 db2 → rows_kept db2 db3 → rows_kept db1 db3.
Proof.
  intros (E1 & R1 & K1 & A1 & L1) (E2 & R2 & K2 & A2 & L2).
  repeat split; [congruence|by etrans..].
Qed.

Lemma handle_rows_kept (rq : request) (db db' : DB) :
  handle rq db = Ok db' → rows_kept db db'.
Proof.
  destruct rq; simpl;
    [unfold update_driver_status|unfold update_my_status
    |unfold update_my_status_body|unfold create_km_entry
    |unfold complete_km_entry|unfold create_leave_request
    |unfold review_leave_request|unfold create_ride
    |unfold update_ride_status|unfold assign_ride_to_driver
    |unfold start_ride|unfold complete_ride];
    intros Hok; open_handler; inserted; repeat split; simpl;
    rewrite ?fmap_app;
    try (rewrite fmap_alter_kept by done);
    try reflexivity; try (by apply prefix_app_r).
Qed.

Lemma create_manual_ride_rows_kept (lib : library)
    (ps : list Passenger.t) (rd : gmap string json) (new_id : string)
    (now : Z) (db db' : DB) :
  create_manual_ride (str_of_exception lib) (real_to_text lib) ps rd new_id now db = Ok db' → rows_kept db db'.
Proof.
  intros (pid & did & _ & ->)
    %create_manual_ride_Ok.
  repeat split; simpl; try reflexivity.
  rewrite fmap_app. by apply prefix_app_r.
Qed.

Lemma serve_all_x_rows_kept (lib : library) (db : DB)
    (rqs : list request_x) :
  rows_kept db (serve_all_x lib db rqs).
Proof.
  revert db. induction rqs as [|rq rqs IH]; intros db.
  - apply rows_kept_refl.
  - simpl. eapply rows_kept_trans; [|apply IH]. unfold serve_x.
    destruct (handle_x lib rq db) as [db'|e] eqn:Hh; simpl.
    + destruct rq as [rq|ps rd i now]; simpl in Hh.
      * by eapply handle_rows_kept.
      * by eapply create_manual_ride_rows_kept.
    + apply rows_kept_refl.
Qed.

(** ** Leave requests *)

Lemma handle_leave_statuses_valid (rq : request) (db db' : DB) :
  leave_statuses_valid db → handle rq db = Ok db' → leave_statuses_valid db'.
Proof.
  unfold leave_statuses_valid. intros Hv.
  destruct rq; simpl;
    [unfold update_driver_status|unfold update_my_status
    |unfold update_my_status_body|unfold create_km_entry
    |unfold complete_km_entry|unfold create_leave_request
    |unfold review_leave_request|unfold create_ride
    |unfold update_ride_status|unfold assign_ride_to_driver
    |unfold start_ride|unfold complete_ride];
    intros Hok; open_handler; inserted; simpl; try done;
    try (apply Forall_app; split; [done|]; repeat constructor;
         set_solver);
    try (apply Forall_alter; [done|]; intros l _ _; simpl;
         match goal with |- context [LeaveStatus_value ?s] => destruct s end;
         set_solver).
Qed.

Lemma serve_all_x_leave_statuses_valid (lib : library)
    (rqs : list request_x) (db : DB) :
  leave_statuses_valid db → leave_statuses_valid (serve_all_x lib db rqs).
Proof.
  revert db. induction rqs as [|rq rqs IH]; intros db Hv; [done|].
  simpl. apply IH. unfold serve_x.
  destruct (handle_x lib rq db) as [db'|e] eqn:Hh; simpl; [|done].
  destruct rq as [rq|ps rd i now]; simpl in Hh.
  - by eapply handle_leave_statuses_valid.
  - apply create_manual_ride_Ok in Hh
      as (pid & did & _ & ->).
    done.
Qed.

Lemma count_status_total (ls : list LeaveRequest.t) :
  Forall (λ l, LeaveRequest.status l ∈ ["pending"; "approved"; "rejected"])
         ls →
  length ls
  = (count_status "pending" ls + count_status "approved" ls
     + count_status "rejected" ls)%nat.
Proof.
  unfold count_status. induction 1 as [|l ls Hl _ IH]; [done|].
  rewrite !filter_cons. simpl. rewrite IH.
  repeat case_decide; simpl; try lia; exfalso;
    repeat match goal with
           | H : _ ∈ _ :: _ |- _ => apply elem_of_cons in H as [H|H]
           | H : _ ∈ [] |- _ => by apply elem_of_nil in H
           end; congruence.
Qed.

(** X3. In every database the server reaches from its start-up state a
    leave request's status is [pending], [approved] or [rejected]; so the
    figures of [get_leave_request_stats] add up: the total equals the sum of
    the three counts, for an administrator and for a driver's own requests.
    The handler raises only for a caller who is no administrator and has no
    driver profile. *)
Theorem leave_stats_add_up (lib : library) (u d : string) (now : Z)
    (rqs : list request_x) (cu : User) :
  match get_leave_request_stats cu
          (serve_all_x lib (startup_event u d now) rqs) with
  | Ok st =>
      total_requests st
      = (pending_requests st + approved_requests st
         + rejected_requests st)%nat
  | Err e =>
      role cu ≠ UserRole.admin ∧
      driver_by_user_id (user_id_of cu)
        (serve_all_x lib (startup_event u d now) rqs) = None ∧
      e = HTTPException 404 "Driver profile not found"
  end.
Proof.
  set (db := serve_all_x lib (startup_event u d now) rqs).
  assert (leave_statuses_valid db) as Hv.
  { apply serve_all_x_leave_statuses_valid. by constructor. }
  unfold get_leave_request_stats.
  destruct (role cu) eqn:Hrole.
  - simpl. by apply count_status_total.
  - destruct (driver_by_user_id (user_id_of cu) db) as [[j drv]|]; [|done].
    simpl. apply count_status_total. by apply Forall_filter_keeps.
  - destruct (driver_by_user_id (user_id_of cu) db) as [[j drv]|]; [|done].
    simpl. apply count_status_total. by apply Forall_filter_keeps.
Qed.

(** ** The ride handlers, read backwards from a commit *)

Lemma create_ride_Ok (p new_id : string) (db db' : DB) :
  create_ride p new_id db = Ok db' →
  (new_id ∉ Ride.id <$> rides db) ∧
  db' = with_rides
          (λ _, rides db ++ [Ride.mk new_id p None "requested" None None None
                               None None 0 0 None]) db.
Proof.
  unfold create_ride. intros Hok.
  destruct (commit_insert _ _ _) as [rs|] eqn:Hins; [|done].
  apply commit_insert_Ok in Hins as [-> ?]. by simplify_eq.
Qed.

Lemma assign_ride_to_driver_Ok (rid did : string) (now : Z) (db db' : DB) :
  assign_ride_to_driver rid did now db = Ok db' →
  ∃ i ride j drv,
    ride_by_id rid db = Some (i, ride) ∧ Ride.status ride = "requested" ∧
    driver_by_id did db = Some (j, drv) ∧ Driver.is_online drv = true ∧
    db' = with_rides
            (alter (λ r, Ride.set_assigned_at (Some now)
                           (Ride.set_status "assigned"
                              (Ride.set_driver_id (Some did) r))) i) db.
Proof.
  unfold assign_ride_to_driver. intros Hok. open_handler.
  eexists _, _, _, _. split_and!; try done.
  by apply negb_false_iff.
Qed.

Lemma start_ride_Ok (rid : string) (km : Z) (u : User) (kid : string)
    (now : Z) (db db' : DB) :
  start_ride rid km u kid now db = Ok db' →
  ∃ di drv ri ride,
    driver_by_user_id (user_id_of u) db = Some (di, drv) ∧
    ride_by_id rid db = Some (ri, ride) ∧
    Ride.driver_id ride = Some (Driver.id drv) ∧
    Ride.status ride = "assigned" ∧
    (kid ∉ KilometerEntry.id <$> km_entries db) ∧
    db' = with_drivers (alter (Driver.set_current_km_reading km) di)
            (with_km_entries
               (λ _, km_entries db
                     ++ [KilometerEntry.mk kid (Driver.id drv) km None
                           (Some rid) "started"])
               (with_rides
                  (alter (λ r, Ride.set_picked_up_at (Some now)
                                 (Ride.set_status "in_progress" r)) ri) db)).
Proof.
  unfold start_ride. intros Hok.
  destruct (driver_by_user_id _ _) as [[di drv]|]; [|done].
  destruct (ride_by_id _ _) as [[ri ride]|]; [|done].
  case_decide; [done|]. case_decide; [done|]. case_decide; [done|].
  destruct (commit_insert _ _ _) as [kms|] eqn:Hins; [|done].
  apply commit_insert_Ok in Hins as [-> ?]. simplify_eq.
  by eexists _, _, _, _.
Qed.

Lemma complete_ride_Ok (rid : string) (km : Z) (dur : option Z) (u : User)
    (now : Z) (db db' : DB) :
  complete_ride rid km dur u now db = Ok db' →
  ∃ di drv ri ride,
    driver_by_user_id (user_id_of u) db = Some (di, drv) ∧
    ride_by_id rid db = Some (ri, ride) ∧
    Ride.driver_id ride = Some (Driver.id drv) ∧
    Ride.status ride = "in_progress" ∧
    rides db'
    = alter (λ r, Ride.set_distance 0
                    (Ride.set_actual_duration dur
                       (Ride.set_completed_at (Some now)
                          (Ride.set_status "completed" r)))) ri (rides db) ∧
    drivers db'
    = alter (λ d, Driver.incr_total_rides
                    (Driver.set_current_km_reading km d)) di (drivers db) ∧
    attendance db' = attendance db ∧
    leave_requests db' = leave_requests db.
Proof.
  unfold complete_ride. intros Hok.
  destruct (driver_by_user_id _ _) as [[di drv]|]; [|done].
  destruct (ride_by_id _ _) as [[ri ride]|]; [|done].
  case_decide; [done|]. case_decide; [done|]. case_decide; [done|].
  simplify_eq. eexists _, _, _, _. split_and!; try done;
    by destruct (started_km_entry_of_ride rid db) as [[??]|].
Qed.

(** ** The work lists *)



(** X5. A committed [assign_ride_to_driver] moves the ride from the pending
    list to the driver's list: the pending query has one row less and the
    assigned query of that driver one row more. *)
Theorem assign_moves_ride (db db' : DB) (rid did : string) (now : Z) :
  assign_ride_to_driver rid did now db = Ok db' →
  (length (pending_query db') + 1 = length (pending_query db))%nat ∧
  (length (assigned_query did db') = length (assigned_query did db) + 1)%nat.
Proof.
  intros (i & ride & j & drv & Hr & Hst & _ & _ & ->)%assign_ride_to_driver_Ok.
  apply list_find_Some in Hr as (Hi & _ & _).
  unfold pending_query, assigned_query. simpl. split.
  - pose proof (length_filter_alter (λ r, Ride.status r = "requested")
                  (λ r, Ride.set_assigned_at (Some now)
                          (Ride.set_status "assigned"
                             (Ride.set_driver_id (Some did) r)))
                  _ _ _ Hi) as Hlen.
    rewrite decide_True in Hlen by done.
    rewrite decide_False in Hlen by done. lia.
  - pose proof (length_filter_alter
                  (λ r, Ride.driver_id r = Some did
                        ∧ Ride.status r ∈ ["assigned"; "in_progress"])
                  (λ r, Ride.set_assigned_at (Some now)
                          (Ride.set_status "assigned"
                             (Ride.set_driver_id (Some did) r)))
                  _ _ _ Hi) as Hlen.
    rewrite decide_False in Hlen
      by (intros [_ Hin]; rewrite Hst in Hin; not_member Hin).
    rewrite decide_True in Hlen by (simpl; split; [done|member]). lia.
Qed.

Lemma assign_moves_ride_witness :
  Ride.id <$> pending_query db_requested = ["r1"] ∧
  assigned_query "d1" db_requested = [] ∧
  pending_query db_assigned = [] ∧
  Ride.id <$> assigned_query "d1" db_assigned = ["r1"].
Proof.
  assert (assign_ride_to_driver "r1" "d1" 2 db_requested = Ok db_assigned)
    as E by (vm_compute; reflexivity).
  destruct (assign_moves_ride db_requested db_assigned "r1" "d1" 2 E)
    as [H1 H2].
  by split_and!.
Defined.

(** X6. The driver's list follows the ride: a committed [start_ride] leaves
    the assigned query of the calling driver as long as it was (the ride is
    still on it, now [in_progress]); a committed [complete_ride] shortens it
    by one. *)
Theorem assigned_list_follows_ride (db db' : DB) (rid : string) (km : Z)
    (u : User) (kid : string) (dur : option Z) (now : Z) (i : nat)
    (drv : Driver.t) :
  driver_by_user_id (user_id_of u) db = Some (i, drv) →
  (start_ride rid km u kid now db = Ok db' →
   length (assigned_query (Driver.id drv) db')
   = length (assigned_query (Driver.id drv) db)) ∧
  (complete_ride rid km dur u now db = Ok db' →
   (length (assigned_query (Driver.id drv) db') + 1
    = length (assigned_query (Driver.id drv) db))%nat).
Proof.
  intros Hd. split.
  - intros (di & drv0 & ri & ride & Hd0 & Hr & Hdid & Hst & _ & ->)
      %start_ride_Ok.
    rewrite Hd in Hd0. injection Hd0 as <- <-.
    apply list_find_Some in Hr as (Hi & _ & _).
    unfold assigned_query. simpl.
    pose proof (length_filter_alter
                  (λ r, Ride.driver_id r = Some (Driver.id drv)
                        ∧ Ride.status r ∈ ["assigned"; "in_progress"])
                  (λ r, Ride.set_picked_up_at (Some now)
                          (Ride.set_status "in_progress" r))
                  _ _ _ Hi) as Hlen.
    rewrite decide_True in Hlen by (rewrite Hst; split; [done|member]).
    rewrite decide_True in Hlen by (simpl; split; [done|member]). lia.
  - intros (di & drv0 & ri & ride & Hd0 & Hr & Hdid & Hst & Hrides & _)
      %complete_ride_Ok.
    rewrite Hd in Hd0. injection Hd0 as <- <-.
    apply list_find_Some in Hr as (Hi & _ & _).
    unfold assigned_query. rewrite Hrides.
    pose proof (length_filter_alter
                  (λ r, Ride.driver_id r = Some (Driver.id drv)
                        ∧ Ride.status r ∈ ["assigned"; "in_progress"])
                  (λ r, Ride.set_distance 0
                          (Ride.set_actual_duration dur
                             (Ride.set_completed_at (Some now)
                                (Ride.set_status "completed" r))))
                  _ _ _ Hi) as Hlen.
    rewrite decide_True in Hlen by (rewrite Hst; split; [done|member]).
    rewrite decide_False in Hlen by (simpl; intros [_ Hin]; not_member Hin).
    lia.
Qed.

Lemma assigned_list_follows_ride_witness :
  Ride.status <$> assigned_query "d1" db_assigned = ["assigned"] ∧
  Ride.status <$> assigned_query "d1" db_in_progress = ["in_progress"] ∧
  assigned_query "d1" db_completed = [].
Proof.
  assert (start_ride "r1" 100 driver1 "k1" 3 db_assigned = Ok db_in_progress)
    as E1 by (vm_compute; reflexivity).
  assert (complete_ride "r1" 150 (Some 12) driver1 9 db_in_progress
          = Ok db_completed) as E2 by (vm_compute; reflexivity).
  destruct (assigned_list_follows_ride db_assigned db_in_progress "r1" 100
              driver1 "k1" None 3 0 _ eq_refl) as [H1 _].
  destruct (assigned_list_follows_ride db_in_progress db_completed "r1" 150
              driver1 "k1" (Some 12) 9 0 _ eq_refl) as [_ H2].
  specialize (H1 E1). specialize (H2 E2). by split_and!.
Defined.

(** ** Once only *)

(** X7. In the database that a committed typed ride handler leaves, the
    same handler on the same ride raises 400: after [assign_ride_to_driver]
    a further assignment of that ride, after [start_ride] a further start by
    that driver (no second kilometer entry is opened), after [complete_ride]
    a further completion.  This holds for that database and no longer:
    [update_ride_status] writes any status back, and after it has put the
    completed ride to [in_progress] again, [complete_ride] commits a second
    time and the driver's [total_rides] has gone up by two. *)
Theorem ride_steps_once (db db' : DB) (rid : string) (u : User) :
  (∀ did now, assign_ride_to_driver rid did now db = Ok db' →
     ∀ did2 now2,
       assign_ride_to_driver rid did2 now2 db'
       = Err (HTTPException 400 "Ride is not in requested status")) ∧
  (∀ km kid now, start_ride rid km u kid now db = Ok db' →
     ∀ km2 kid2 now2,
       start_ride rid km2 u kid2 now2 db'
       = Err (HTTPException 400 "Ride is not in assigned status")) ∧
  (∀ km dur now, complete_ride rid km dur u now db = Ok db' →
     ∀ km2 dur2 now2,
       complete_ride rid km2 dur2 u now2 db'
       = Err (HTTPException 400 "Ride is not in progress")) ∧
  (∀ km dur now, complete_ride rid km dur u now db = Ok db' →
     ∀ di drv now1 km2 dur2 now2,
       driver_by_user_id (user_id_of u) db = Some (di, drv) →
       sqlite_integer km2 → sqlite_integer_opt dur2 →
       sqlite_integer (Driver.total_rides drv + 2) →
       ∃ db1 db2 drv2,
         update_ride_status rid in_progress now1 db' = Ok db1 ∧
         complete_ride rid km2 dur2 u now2 db1 = Ok db2 ∧
         driver_by_user_id (user_id_of u) db2 = Some (di, drv2) ∧
         Driver.total_rides drv2 = Driver.total_rides drv + 2).
Proof.
  split_and!.
  - intros did now
      (i & ride & j & drv & Hr & _ & _ & _ & ->)%assign_ride_to_driver_Ok
      did2 now2.
    unfold assign_ride_to_driver. unfold ride_by_id at 1. simpl.
    erewrite ride_by_id_alter; [|done|done]. by rewrite decide_True.
  - intros km kid now
      (di & drv & ri & ride & Hd & Hr & Hdid & _ & _ & ->)%start_ride_Ok
      km2 kid2 now2.
    unfold start_ride. unfold driver_by_user_id at 1. simpl.
    erewrite driver_by_user_id_alter; [|done|done].
    unfold ride_by_id at 1. simpl.
    erewrite ride_by_id_alter; [|done|done]. simpl.
    case_decide as Hc; [by destruct Hc|]. done || by rewrite decide_True.
  - intros km dur now
      (di & drv & ri & ride & Hd & Hr & Hdid & _ & Hrides & Hdrivers & _)
      %complete_ride_Ok km2 dur2 now2.
    unfold complete_ride. unfold driver_by_user_id, ride_by_id.
    rewrite Hrides, Hdrivers.
    erewrite driver_by_user_id_alter; [|done|done].
    erewrite ride_by_id_alter; [|done|done]. simpl.
    case_decide as Hc; [by destruct Hc|]. done || by rewrite decide_True.
  - intros km dur now
      (di0 & drv0 & ri & ride & Hd0 & Hr & Hdid & _ & Hrides & Hdrivers & _)
      %complete_ride_Ok di drv now1 km2 dur2 now2 Hd Hkm2 Hdur2 Htot.
    rewrite Hd in Hd0. injection Hd0 as <- <-.
    assert (ride_by_id rid db'
            = Some (ri, Ride.set_distance 0
                          (Ride.set_actual_duration dur
                             (Ride.set_completed_at (Some now)
                                (Ride.set_status "completed" ride)))))
      as Hr'.
    { unfold ride_by_id. rewrite Hrides.
      exact (ride_by_id_alter db
               (λ r, Ride.set_distance 0
                       (Ride.set_actual_duration dur
                          (Ride.set_completed_at (Some now)
                             (Ride.set_status "completed" r))))
               _ _ _ (λ _, eq_refl) Hr). }
    assert (driver_by_user_id (user_id_of u) db'
            = Some (di, Driver.incr_total_rides
                          (Driver.set_current_km_reading km drv))) as Hd'.
    { unfold driver_by_user_id. rewrite Hdrivers.
      exact (driver_by_user_id_alter db
               (λ d, Driver.incr_total_rides
                       (Driver.set_current_km_reading km d))
               _ _ _ (λ _, eq_refl) Hd). }
    unfold update_ride_status. rewrite Hr'.
    eexists _, _, _. split; [done|].
    unfold complete_ride.
    change (driver_by_user_id (user_id_of u) (with_rides _ db'))
      with (driver_by_user_id (user_id_of u) db'). rewrite Hd'.
    unfold ride_by_id at 1. simpl.
    erewrite ride_by_id_alter; [|done|exact Hr']. simpl.
    rewrite ?decide_False by (intros []; done).
    rewrite decide_False
      by (intros Hn; apply Hn; split_and!; [done|done|];
          unfold sqlite_integer in *; simpl; lia).
    split; [done|].
    split.
    + unfold driver_by_user_id at 1.
      match goal with
      | |- context [started_km_entry_of_ride ?r ?d] =>
          destruct (started_km_entry_of_ride r d) as [[??]|]
      end; simpl;
        exact (driver_by_user_id_alter db'
                 (λ d, Driver.incr_total_rides
                         (Driver.set_current_km_reading km2 d))
                 _ _ _ (λ _, eq_refl) Hd').
    + simpl. lia.
Qed.

Lemma ride_steps_once_witness :
  assign_ride_to_driver "r1" "d1" 5 db_assigned
  = Err (HTTPException 400 "Ride is not in requested status") ∧
  start_ride "r1" 120 driver1 "k2" 6 db_in_progress
  = Err (HTTPException 400 "Ride is not in assigned status") ∧
  complete_ride "r1" 170 None driver1 11 db_completed
  = Err (HTTPException 400 "Ride is not in progress") ∧
  (∃ db1 db2 drv2,
     update_ride_status "r1" in_progress 10 db_completed = Ok db1 ∧
     complete_ride "r1" 170 None driver1 11 db1 = Ok db2 ∧
     driver_by_user_id "u1" db2 = Some (0%nat, drv2) ∧
     Driver.total_rides drv2 = 1250 + 2).
Proof.
  destruct (ride_steps_once db_requested db_assigned "r1" driver1)
    as (H1 & _ & _ & _).
  destruct (ride_steps_once db_assigned db_in_progress "r1" driver1)
    as (_ & H2 & _ & _).
  destruct (ride_steps_once db_in_progress db_completed "r1" driver1)
    as (_ & _ & H3 & H4).
  assert (complete_ride "r1" 150 (Some 12) driver1 9 db_in_progress
          = Ok db_completed) as E by (vm_compute; reflexivity).
  destruct (H4 150 (Some 12) 9 E 0%nat _ 10 170 None 11 eq_refl
              ltac:(by vm_compute) ltac:(done) ltac:(by vm_compute))
    as (db1 & db2 & drv2 & E1 & E2 & Hd2 & Htot).
  split_and!.
  - apply (H1 "d1" 2). vm_compute. reflexivity.
  - apply (H2 100 "k1" 3). vm_compute. reflexivity.
  - by apply (H3 150 (Some 12) 9).
  - exists db1, db2, drv2. by split_and!.
Defined.

(** X8. Only the driver a ride is assigned to can start or complete it: if
    either handler commits, the ride's [driver_id] is the profile id of the
    caller's driver; for a ride that carries another driver, or none, both
    raise 403 whatever the ride's status, and write nothing. *)
Theorem only_the_assigned_driver (db : DB) (rid : string) (u : User)
    (di ri : nat) (drv : Driver.t) (ride : Ride.t) :
  driver_by_user_id (user_id_of u) db = Some (di, drv) →
  ride_by_id rid db = Some (ri, ride) →
  (∀ km kid now db', start_ride rid km u kid now db = Ok db' →
     Ride.driver_id ride = Some (Driver.id drv)) ∧
  (∀ km dur now db', complete_ride rid km dur u now db = Ok db' →
     Ride.driver_id ride = Some (Driver.id drv)) ∧
  (Ride.driver_id ride ≠ Some (Driver.id drv) →
   ∀ km kid dur now,
     start_ride rid km u kid now db
     = Err (HTTPException 403 "You are not assigned to this ride") ∧
     complete_ride rid km dur u now db
     = Err (HTTPException 403 "You are not assigned to this ride") ∧
     state_after db (start_ride rid km u kid now db) = db ∧
     state_after db (complete_ride rid km dur u now db) = db).
Proof.
  intros Hd Hr. split_and!.
  - intros km kid now db'
      (di0 & drv0 & ri0 & ride0 & Hd0 & Hr0 & Hdid & _)%start_ride_Ok.
    by simplify_eq.
  - intros km dur now db'
      (di0 & drv0 & ri0 & ride0 & Hd0 & Hr0 & Hdid & _)%complete_ride_Ok.
    by simplify_eq.
  - intros Hne km kid dur now. unfold start_ride, complete_ride.
    rewrite Hd, Hr. by rewrite !decide_True.
Qed.

Lemma only_the_assigned_driver_witness :
  Ride.driver_id <$> rides db_requested = [None] ∧
  start_ride "r1" 100 driver1 "k1" 3 db_requested
  = Err (HTTPException 403 "You are not assigned to this ride") ∧
  complete_ride "r1" 150 None driver1 9 db_requested
  = Err (HTTPException 403 "You are not assigned to this ride").
Proof.
  split; [reflexivity|].
  destruct (only_the_assigned_driver db_requested "r1" driver1 0 0 _ _
              eq_refl eq_refl) as (_ & _ & H).
  destruct (H ltac:(done) 100 "k1" None 3) as (E1 & _ & _ & _).
  destruct (H ltac:(done) 150 "k1" None 9) as (_ & E2 & _ & _).
  by split.
Defined.

(** ** Cancelling *)



(** ** The odometer ledger on its own *)

Lemma list_find_fresh {A} (key : A → string) (i : string) (l : list A) :
  i ∉ key <$> l → list_find (λ x, key x = i) l = None.
Proof.
  intros Hfresh. apply list_find_None, Forall_forall. intros x Hx Hkey.
  apply Hfresh. subst i. by apply list_elem_of_fmap_2.
Qed.

(** X10. An entry opened by [create_km_entry] under an unused id and then
    closed by [complete_km_entry] under that id is the last row of the
    table, with both readings and status [completed]; if the driver named
    exists, the driver's reading is the end reading, and if not, both calls
    commit all the same and the drivers table is untouched.  Both readings
    are such as an Integer column holds; with a reading outside that range
    the call raises [OverflowError]. *)
Theorem km_entry_round_trip (db : DB) (did : string) (start_km end_km : Z)
    (rid : option string) (new_id : string) :
  new_id ∉ KilometerEntry.id <$> km_entries db →
  (¬ sqlite_integer start_km →
   create_km_entry did start_km rid new_id db = Err OverflowError) ∧
  (sqlite_integer start_km →
   ∃ db1,
     create_km_entry did start_km rid new_id db = Ok db1 ∧
     (¬ sqlite_integer end_km →
      complete_km_entry new_id end_km db1 = Err OverflowError)) ∧
  (sqlite_integer start_km → sqlite_integer end_km →
  ∃ db1 db2,
    create_km_entry did start_km rid new_id db = Ok db1 ∧
    complete_km_entry new_id end_km db1 = Ok db2 ∧
    km_entries db2
    = km_entries db ++ [KilometerEntry.mk new_id did start_km (Some end_km)
                          rid "completed"] ∧
    rides db2 = rides db ∧
    (∀ j drv, driver_by_id did db = Some (j, drv) →
       driver_by_id did db2
       = Some (j, Driver.set_current_km_reading end_km drv)) ∧
    (driver_by_id did db = None → drivers db2 = drivers db)).
Proof.
  intros Hfresh.
  set (new := KilometerEntry.mk new_id did start_km None rid "started").
  assert (∀ db0, km_entries db0 = km_entries db ++ [new] →
            km_entry_by_id new_id db0 = Some (length (km_entries db), new))
    as Hfind.
  { intros db0 E. unfold km_entry_by_id. rewrite E.
    apply list_find_snoc_None; [|done]. by apply list_find_fresh. }
  assert (alter (λ k, KilometerEntry.set_status "completed"
                        (KilometerEntry.set_end_km (Some end_km) k))
            (length (km_entries db)) (km_entries db ++ [new])
          = km_entries db ++ [KilometerEntry.mk new_id did start_km
                                (Some end_km) rid "completed"]) as Halter.
  { rewrite <- (Nat.add_0_r (length (km_entries db))).
    by rewrite alter_app_r. }
  split_and!.
  - intros Hs. unfold create_km_entry. by rewrite decide_True.
  - intros Hs.
    destruct (create_km_entry_fresh db did start_km rid new_id Hfresh Hs)
      as (db1 & E1 & Hk & _).
    exists db1. split; [done|]. intros He. unfold complete_km_entry.
    rewrite (Hfind db1 Hk). by rewrite decide_True.
  - intros Hs He. unfold create_km_entry.
    rewrite decide_False by (intros []; done).
    rewrite commit_insert_fresh by done. fold new.
    destruct (driver_by_id did db) as [[j drv]|] eqn:Hd.
    + eexists _, _. split; [done|]. unfold complete_km_entry.
      erewrite Hfind; [|done].
      rewrite decide_False by (intros []; done). simpl.
      unfold driver_by_id at 1. simpl.
      erewrite driver_by_id_alter; [|done|done].
      split; [done|]. simpl. rewrite Halter. split_and!; try done.
      intros j' drv' [= <- <-]. unfold driver_by_id. simpl.
      rewrite list_alter_alter_eq.
      exact (driver_by_id_alter db
               (Driver.set_current_km_reading end_km
                ∘ Driver.set_current_km_reading start_km)
               _ _ _ (λ _, eq_refl) Hd).
    + eexists _, _. split; [done|]. unfold complete_km_entry.
      erewrite Hfind; [|done].
      rewrite decide_False by (intros []; done). simpl.
      unfold driver_by_id in *. simpl. rewrite Hd.
      split; [done|]. simpl. by rewrite Halter.
Qed.

Lemma km_entry_round_trip_witness :
  driver_by_id "ghost" db_startup = None ∧
  ∃ db1 db2,
    create_km_entry "ghost" 10 None "k9" db_startup = Ok db1 ∧
    complete_km_entry "k9" 30 db1 = Ok db2 ∧
    km_entries db2
    = [KilometerEntry.mk "k9" "ghost" 10 (Some 30) None "completed"] ∧
    drivers db2 = drivers db_startup.
Proof.
  split; [reflexivity|].
  destruct (km_entry_round_trip db_startup "ghost" 10 30 None "k9")
    as (_ & _ & H); [fresh_id|].
  destruct (H ltac:(by vm_compute) ltac:(by vm_compute))
    as (db1 & db2 & E1 & E2 & Hk & _ & _ & Hd).
  exists db1, db2. split_and!; [done|done|by rewrite Hk|by apply Hd].
Defined.

(** X11. [get_km_entries] treats an empty [driver_id] like a missing one and
    lists the whole table; for a proper driver id it lists exactly that
    driver's entries, in table order; and an entry that [create_km_entry]
    has opened for that driver, under an unused id and with a reading that
    an Integer column holds, is listed last. *)
Theorem get_km_entries_lists (db : DB) :
  get_km_entries None db = km_entries db ∧
  get_km_entries (Some "") db = km_entries db ∧
  (∀ did, did ≠ "" →
     get_km_entries (Some did) db
     = filter (λ k, KilometerEntry.driver_id k = did) (km_entries db)) ∧
  (∀ did start_km rid new_id,
     did ≠ "" →
     new_id ∉ KilometerEntry.id <$> km_entries db →
     sqlite_integer start_km →
     ∃ db',
       create_km_entry did start_km rid new_id db = Ok db' ∧
       get_km_entries (Some did) db'
       = get_km_entries (Some did) db
         ++ [KilometerEntry.mk new_id did start_km None rid "started"]).
Proof.
  assert (∀ did, did ≠ "" → given (Some did) = Some did) as Hg.
  { intros [|a s]; done. }
  split_and!; try done.
  - intros did Hdid. unfold get_km_entries. by rewrite Hg.
  - intros did start_km rid new_id Hdid Hfresh Hkm.
    destruct (create_km_entry_fresh db did start_km rid new_id Hfresh Hkm)
      as (db' & E & Hk & _).
    exists db'. split; [done|]. unfold get_km_entries. rewrite Hg by done.
    rewrite Hk, filter_app. by rewrite filter_cons_True.
Qed.

Lemma get_km_entries_lists_witness :
  KilometerEntry.id <$> get_km_entries (Some "d1") db_open_entry = ["k0"] ∧
  get_km_entries (Some "") db_open_entry = km_entries db_open_entry ∧
  ∃ db',
    create_km_entry "d1" 300 None "k2" db_open_entry = Ok db' ∧
    KilometerEntry.id <$> get_km_entries (Some "d1") db' = ["k0"; "k2"].
Proof.
  destruct (get_km_entries_lists db_open_entry) as (_ & H2 & _ & H4).
  destruct (H4 "d1" 300 None "k2") as (db' & E & Hl);
    [done|fresh_id|by vm_compute|].
  split; [reflexivity|]. split; [exact H2|].
  exists db'. split; [exact E|]. by rewrite Hl.
Defined.

(** ** A work session from start to end *)

(** X12. A driver who is offline with no active session goes online at
    [t1] and offline at [t2] through [update_my_status_body]: both calls
    commit and the attendance table gains exactly one row, the session
    opened at [t1], now [completed], with [end_time = t2] and, as
    [total_hours], the double that Python computes for
    [(t2 - t1).total_seconds() / 3600]: the microseconds between the two
    times divided by 1000000 and rounded to a double, and that double
    divided by 3600 and rounded again.  The driver is offline again. *)
Theorem attendance_round_trip (db : DB) (u : User) (i : nat)
    (drv : Driver.t) (id1 id2 : string) (t1 t1' t2 t2' : Z) :
  driver_by_user_id (user_id_of u) db = Some (i, drv) →
  Driver.is_online drv = false →
  active_attendance_of (Driver.id drv) db = None →
  id1 ∉ DriverAttendance.id <$> attendance db →
  ∃ db1 db2,
    update_my_status_body (Some true) u id1 t1 t1' db = Ok db1 ∧
    update_my_status_body (Some false) u id2 t2 t2' db1 = Ok db2 ∧
    attendance db2
    = attendance db ++ [DriverAttendance.mk id1 (Driver.id drv) (date_of t1)
                          t1 (Some t2) (Some (hours_between t1 t2))
                          "completed"] ∧
    active_sessions (Driver.id drv) db2 = [] ∧
    driver_by_user_id (user_id_of u) db2
    = Some (i, Driver.set_is_online false t2' drv).
Proof.
  intros Hd Hoff Hnone Hfresh.
  set (new := DriverAttendance.mk id1 (Driver.id drv) (date_of t1) t1 None
                None "active").
  assert (update_my_status_body (Some true) u id1 t1 t1' db
          = Ok (with_drivers (alter (Driver.set_is_online true t1') i)
                  (with_attendance (λ _, attendance db ++ [new]) db))) as E1.
  { unfold update_my_status_body. rewrite Hd, Hoff. simpl.
    by rewrite commit_insert_fresh. }
  eexists _, _. split; [exact E1|].
  unfold update_my_status_body at 1. unfold driver_by_user_id at 1. simpl.
  erewrite driver_by_user_id_alter; [|done|done]. simpl.
  unfold active_attendance_of at 1. simpl.
  erewrite list_find_snoc_None; [|exact Hnone|done].
  split; [done|]. simpl.
  assert (alter (DriverAttendance.close t2 (hours_between t1 t2))
            (length (attendance db)) (attendance db ++ [new])
          = attendance db
            ++ [DriverAttendance.mk id1 (Driver.id drv) (date_of t1) t1
                  (Some t2) (Some (hours_between t1 t2)) "completed"])
    as Halter.
  { rewrite <- (Nat.add_0_r (length (attendance db))).
    by rewrite alter_app_r. }
  rewrite Halter. split; [done|]. split.
  - unfold active_sessions. simpl. rewrite Halter, filter_app.
    rewrite (filter_nil_of_find_None _ _ Hnone).
    by rewrite filter_cons_False by (by intros [_ ?]).
  - unfold driver_by_user_id. simpl. rewrite list_alter_alter_eq.
    exact (driver_by_user_id_alter db
             (Driver.set_is_online false t2' ∘ Driver.set_is_online true t1')
             _ _ _ (λ _, eq_refl) Hd).
Qed.

Lemma attendance_round_trip_witness :
  ∃ db1 db2,
    update_my_status_body (Some true) driver1 "a1" 0 1 db_startup = Ok db1 ∧
    update_my_status_body (Some false) driver1 "a2" 7200000000 7200000001 db1
    = Ok db2 ∧
    attendance db2
    = [DriverAttendance.mk "a1" "d1" 0 0 (Some 7200000000)
         (Some 2%float) "completed"] ∧
    Driver.is_online <$> drivers db2 = [false].
Proof.
  destruct (attendance_round_trip db_startup driver1 0 _ "a1" "a2" 0 1
              7200000000 7200000001 eq_refl eq_refl eq_refl)
    as (db1 & db2 & E1 & E2 & Ha & _ & _); [fresh_id|].
  exists db1, db2. split_and!; [done|done|rewrite Ha; by vm_compute|].
  injection E1 as <-. by injection E2 as <-.
Defined.

(** ** Leave requests: filing and reading *)

(** X13. Filing and reading back.  A caller who is no administrator files
    for the driver profile of their own user; an administrator must name a
    driver, by user id, and a missing or empty name raises 400.  With an
    unused request id the request is stored last, under the driver's
    profile id, [pending] and unreviewed, and [get_leave_request] under that
    id hands the same row back to the caller who filed it. *)
Theorem leave_request_filed_and_read (db : DB) (for_user : string)
    (req : option string) (s e : Z) (reason : string) (cu : User)
    (new_id : string) (j : nat) (drv : Driver.t) :
  driver_by_user_id for_user db = Some (j, drv) →
  new_id ∉ LeaveRequest.id <$> leave_requests db →
  (role cu = UserRole.admin ∧ req = Some for_user ∧ for_user ≠ "")
  ∨ (role cu ≠ UserRole.admin ∧ user_id_of cu = for_user) →
  ∃ db',
    create_leave_request req s e reason cu new_id db = Ok db' ∧
    leave_requests db'
    = leave_requests db ++ [LeaveRequest.mk new_id (Driver.id drv) s e reason
                              "pending" None None None] ∧
    get_leave_request new_id cu db'
    = Ok (LeaveRequest.mk new_id (Driver.id drv) s e reason "pending" None
            None None) ∧
    (role cu = UserRole.admin →
     create_leave_request None s e reason cu new_id db
     = Err (HTTPException 400 "driver_id is required for admin requests") ∧
     create_leave_request (Some "") s e reason cu new_id db
     = Err (HTTPException 400 "driver_id is required for admin requests")).
Proof.
  intros Hd Hfresh Hwho.
  set (new := LeaveRequest.mk new_id (Driver.id drv) s e reason "pending"
                None None None).
  assert (create_leave_request req s e reason cu new_id db
          = Ok (with_leave_requests (λ _, leave_requests db ++ [new]) db))
    as E.
  { unfold create_leave_request.
    destruct Hwho as [(Hrole & -> & Hne)|[Hrole <-]].
    - rewrite Hrole. destruct for_user as [|a t]; [done|].
      rewrite Hd. by rewrite commit_insert_fresh.
    - destruct (role cu); [done| |];
        rewrite Hd; by rewrite commit_insert_fresh. }
  eexists. split; [exact E|]. split; [done|]. split.
  - unfold get_leave_request. unfold leave_request_by_id. simpl.
    erewrite list_find_snoc_None; [|by apply list_find_fresh|done].
    destruct Hwho as [(Hrole & _ & _)|[Hrole <-]].
    + by rewrite Hrole.
    + destruct (role cu); [done| |done].
      change (driver_by_user_id (user_id_of cu) _)
        with (driver_by_user_id (user_id_of cu) db).
      rewrite Hd. by rewrite decide_False by (intros []; done).
  - intros Hrole. unfold create_leave_request. by rewrite Hrole.
Qed.

Lemma leave_request_filed_and_read_witness :
  ∃ db',
    create_leave_request None 10 20 "rest" driver1 "l2" db_leave_approved
    = Ok db' ∧
    LeaveRequest.id <$> leave_requests db' = ["l1"; "l2"] ∧
    get_leave_request "l2" driver1 db'
    = Ok (LeaveRequest.mk "l2" "d1" 10 20 "rest" "pending" None None None).
Proof.
  destruct (leave_request_filed_and_read db_leave_approved "u1" None 10 20
              "rest" driver1 "l2" 0 _ eq_refl)
    as (db' & E & Hl & Hg & _); [fresh_id|by right|].
  exists db'. split; [exact E|]. split; [by rewrite Hl|exact Hg].
Defined.

(** X14. Who reads which leave request.  A caller with role driver gets from
    [get_leave_request] only a request filed under their own profile: for a
    request of another driver, or without a profile, the handler raises 403.
    [get_leave_requests] without [driver_id] gives such a caller, when the
    profile exists, exactly the requests under that profile; with a
    [driver_id] it raises 403 for everyone but an administrator, who gets
    the requests under that id.  The listings answer whatever the table
    holds, also when it is empty. *)
Theorem leave_requests_by_role (db : DB) (cu : User) :
  (role cu = UserRole.driver →
   ∀ request_id i l,
     leave_request_by_id request_id db = Some (i, l) →
     (∀ l', get_leave_request request_id cu db = Ok l' →
        l' = l ∧ ∃ j drv, driver_by_user_id (user_id_of cu) db = Some (j, drv)
                          ∧ LeaveRequest.driver_id l = Driver.id drv) ∧
     (∀ j drv, driver_by_user_id (user_id_of cu) db = Some (j, drv) →
        LeaveRequest.driver_id l ≠ Driver.id drv →
        get_leave_request request_id cu db
        = Err (HTTPException 403 "Access denied")) ∧
     (driver_by_user_id (user_id_of cu) db = None →
        get_leave_request request_id cu db
        = Err (HTTPException 403 "Access denied"))) ∧
  (role cu = UserRole.driver →
   ∀ j drv, driver_by_user_id (user_id_of cu) db = Some (j, drv) →
     get_leave_requests None cu db
     = Ok (filter (λ r, LeaveRequest.driver_id r = Driver.id drv)
             (leave_requests db))) ∧
  (role cu ≠ UserRole.admin →
   ∀ did, did ≠ "" →
     get_leave_requests (Some did) cu db
     = Err (HTTPException 403
              "Only admins can view other drivers' leave requests")) ∧
  (role cu = UserRole.admin →
   (∀ request_id i l,
      leave_request_by_id request_id db = Some (i, l) →
      get_leave_request request_id cu db = Ok l) ∧
   get_leave_requests None cu db = Ok (leave_requests db) ∧
   get_leave_requests (Some "") cu db = Ok (leave_requests db) ∧
   (∀ did, did ≠ "" →
      get_leave_requests (Some did) cu db
      = Ok (filter (λ r, LeaveRequest.driver_id r = did)
              (leave_requests db)))) ∧
  (∀ request_id,
     leave_request_by_id request_id db = None →
     get_leave_request request_id cu db
     = Err (HTTPException 404 "Leave request not found")).
Proof.
  assert (∀ did, did ≠ "" → given (Some did) = Some did) as Hg.
  { intros [|a t]; done. }
  split_and!.
  - intros Hrole request_id i l Hl. unfold get_leave_request.
    rewrite Hl, Hrole. simpl. split_and!.
    + intros l'. destruct (driver_by_user_id _ _) as [[j drv]|]; [|done].
      case_decide as Hown; [done|]. intros [= <-]. split; [done|].
      by exists j, drv.
    + intros j drv -> Hne. by rewrite decide_True.
    + by intros ->.
  - intros Hrole j drv Hd. unfold get_leave_requests.
    by rewrite Hrole, Hd.
  - intros Hrole did Hdid. unfold get_leave_requests. rewrite Hg by done.
    by destruct (role cu).
  - intros Hrole. unfold get_leave_request, get_leave_requests.
    split_and!.
    + intros request_id i l ->. by rewrite Hrole.
    + simpl. by rewrite Hrole.
    + simpl. by rewrite Hrole.
    + intros did Hdid. by rewrite Hg, Hrole.
  - intros request_id Hl. unfold get_leave_request. by rewrite Hl.
Qed.

Lemma leave_requests_by_role_witness :
  get_leave_request "l1" driver1 db_leave_approved
  = Ok (LeaveRequest.mk "l1" "d1" 10 20 "holiday" "approved" (Some 5)
          (Some "u0") None) ∧
  get_leave_request "l1" (mkUser "u7" UserRole.driver) db_leave_approved
  = Err (HTTPException 403 "Access denied") ∧
  get_leave_requests (Some "d1") driver1 db_leave_approved
  = Err (HTTPException 403
           "Only admins can view other drivers' leave requests") ∧
  get_leave_requests None driver1 db_leave_approved
  = Ok (leave_requests db_leave_approved).
Proof.
  destruct (leave_requests_by_role db_leave_approved
              (mkUser "u7" UserRole.driver)) as (H & _).
  destruct (H eq_refl "l1" 0%nat _ eq_refl) as (_ & _ & Hnone).
  destruct (leave_requests_by_role db_leave_approved driver1)
    as (_ & Hown & H403 & _).
  split_and!; [reflexivity|by apply Hnone|by apply H403|].
  by rewrite (Hown eq_refl 0%nat _ eq_refl).
Defined.

(** ** Rides created by hand *)

(** X15. [create_manual_ride] commits exactly when the request's JSON
    object has the four fields, each with a value that SQLite binds as a
    text (not [null], not NaN, not an integer of more than 64 bits, not an
    array or object), the passenger and the driver are found under the texts
    of their fields, the driver is online and the ride id is unused; the
    ride is then stored last, already [assigned] to that driver, and nothing
    else changes.  Every refusal, whatever the [try] block raised for it
    (400, 404 or a database error), reaches the caller as a 500; so does a
    request that would be accepted but for a [null] address, which the
    NOT NULL column refuses at the commit. *)
Theorem create_manual_ride_commits_or_500 (lib : library)
    (ps : list Passenger.t) (rd : gmap string json) (new_id : string)
    (now : Z) (db : DB) :
  (∀ pid did,
     manual_ride_accepted (real_to_text lib) ps rd new_id db pid did →
     create_manual_ride (str_of_exception lib) (real_to_text lib) ps rd
       new_id now db
     = Ok (with_rides
             (λ _, rides db ++ [Ride.mk new_id pid (Some did) "assigned"
                                  (Some now) None None None None 0 0 None])
             db)) ∧
  ((¬ ∃ pid did,
        manual_ride_accepted (real_to_text lib) ps rd new_id db pid did) →
   ∃ e, create_manual_ride_try (real_to_text lib) ps rd new_id now db = Err e
        ∧ create_manual_ride (str_of_exception lib) (real_to_text lib) ps rd
            new_id now db
          = Err (HTTPException 500
                   ("Error creating ride: " +:+ str_of_exception lib e))) ∧
  (∀ pid did field,
     manual_ride_accepted (real_to_text lib) ps rd new_id db pid did →
     field ∈ ["pickup_address"; "dropoff_address"] →
     create_manual_ride_try (real_to_text lib) ps (<[field := JNull]> rd)
       new_id now db = Err IntegrityError ∧
     create_manual_ride (str_of_exception lib) (real_to_text lib) ps
       (<[field := JNull]> rd) new_id now db
     = Err (HTTPException 500
              ("Error creating ride: "
               +:+ str_of_exception lib IntegrityError))).
Proof.
  split_and!.
  - intros pid did Hacc. unfold create_manual_ride.
    by rewrite (create_manual_ride_try_accepted _ _ _ _ now _ _ _ Hacc).
  - intros Hno.
    destruct (create_manual_ride_try (real_to_text lib) ps rd new_id now db)
      as [db'|e] eqn:Htry.
    + destruct Hno.
      apply create_manual_ride_try_Ok in Htry as (pid & did & Hacc & _).
      by exists pid, did.
    + exists e. split; [done|]. unfold create_manual_ride. by rewrite Htry.
  - intros pid did field
      (pv & dv & av & bv & a & b & j & drv & Hp & Hd & Ha & Hb & Bp & Bd
       & Ba & Bb & Hin & Hdrv & Hon & Hfresh) Hfield.
    apply list_elem_of_fmap in Hin as (p & -> & Hin).
    destruct (list_find_elem_of (λ p0, Passenger.id p0 = Passenger.id p) ps p
                Hin eq_refl) as [[pi p'] Hfind].
    assert (create_manual_ride_try (real_to_text lib) ps
              (<[field := JNull]> rd) new_id now db = Err IntegrityError)
      as Htry.
    { unfold create_manual_ride_try.
      assert (list_find (λ f, <[field := JNull]> rd !! f = None)
                ["passenger_id"; "driver_id"; "pickup_address";
                 "dropoff_address"] = None) as ->.
      { apply list_find_None. repeat constructor;
          (intros Hn; apply lookup_insert_None in Hn as [Hn _]; congruence). }
      apply elem_of_cons in Hfield as [->|Hfield];
        [|apply elem_of_cons in Hfield as [->|Hfield];
          [|by apply elem_of_nil in Hfield]].
      - rewrite (lookup_insert_ne rd "pickup_address" "passenger_id")
          by done.
        rewrite (lookup_insert_ne rd "pickup_address" "driver_id") by done.
        rewrite (lookup_insert_ne rd "pickup_address" "dropoff_address")
          by done.
        rewrite lookup_insert_eq.
        rewrite Hp, Hd, Hb. simpl. rewrite Bp, Bd, Bb. simpl.
        rewrite Hfind, Hdrv, Hon. done.
      - rewrite (lookup_insert_ne rd "dropoff_address" "passenger_id")
          by done.
        rewrite (lookup_insert_ne rd "dropoff_address" "driver_id") by done.
        rewrite (lookup_insert_ne rd "dropoff_address" "pickup_address")
          by done.
        rewrite lookup_insert_eq.
        rewrite Hp, Hd, Ha. simpl. rewrite Bp, Bd, Ba. simpl.
        rewrite Hfind, Hdrv, Hon. done. }
    split; [done|]. unfold create_manual_ride. by rewrite Htry.
Qed.

Lemma create_manual_ride_commits_or_500_witness :
  (∃ db', create_manual_ride (λ _, "") (λ _, "") [Passenger.mk "p1" "u5" 0]
            {[ "passenger_id" := JString "p1"; "driver_id" := JString "d1";
               "pickup_address" := JString "A";
               "dropoff_address" := JString "B" ]}
            "r9" 7 db_requested = Ok db' ∧
          Ride.status <$> rides db' = ["requested"; "assigned"]) ∧
  create_manual_ride (λ _, "") (λ _, "") [Passenger.mk "p1" "u5" 0]
    {[ "passenger_id" := JString "p1"; "driver_id" := JString "d1";
       "pickup_address" := JString "A";
       "dropoff_address" := JString "B" ]}
    "r9" 7 db_startup
  = Err (HTTPException 500 "Error creating ride: ") ∧
  create_manual_ride_try (λ _, "") [Passenger.mk "p1" "u5" 0]
    (<["pickup_address" := JNull]>
       {[ "passenger_id" := JString "p1"; "driver_id" := JString "d1";
          "pickup_address" := JString "A";
          "dropoff_address" := JString "B" ]})
    "r9" 7 db_requested
  = Err IntegrityError.
Proof.
  set (lib := mkLibrary (λ _, "") (λ _, "")).
  set (rd := ({[ "passenger_id" := JString "p1"; "driver_id" := JString "d1";
                 "pickup_address" := JString "A";
                 "dropoff_address" := JString "B" ]} : gmap string json)).
  assert (manual_ride_accepted (real_to_text lib) [Passenger.mk "p1" "u5" 0]
            rd "r9" db_requested "p1" "d1") as Hacc.
  { exists (JString "p1"), (JString "d1"), (JString "A"), (JString "B"),
      "A", "B", 0%nat, (Driver.mk "d1" "u1" 1250 true 45230 2).
    split_and!; try done; [member|fresh_id]. }
  destruct (create_manual_ride_commits_or_500 lib
              [Passenger.mk "p1" "u5" 0] rd "r9" 7 db_requested)
    as (H1 & _ & H3).
  destruct (create_manual_ride_commits_or_500 lib
              [Passenger.mk "p1" "u5" 0] rd "r9" 7 db_startup)
    as (_ & H2 & _).
  split_and!.
  - eexists. split; [exact (H1 _ _ Hacc)|done].
  - destruct H2 as (e & _ & E); [|exact E].
    intros (pid & did & pv & dv & av & bv & a & b & j & drv & _ & Hd & _ & _
            & _ & Bd & _ & _ & _ & Hdrv & Hon & _).
    vm_compute in Hd. injection Hd as <-.
    vm_compute in Bd. injection Bd as <-.
    vm_compute in Hdrv. injection Hdrv as <- <-. discriminate Hon.
  - apply (H3 "p1" "d1" "pickup_address" Hacc). member.
Defined.

(** X16. A ride created by hand is ready for its driver: when
    [create_manual_ride] has committed a ride for the profile of the calling
    driver, [start_ride] on it with an unused entry id and a reading that an
    Integer column holds commits, the ride is [in_progress] with the
    starting reading entered as the driver's odometer entry, and it is on
    the driver's assigned query. *)
Theorem manual_ride_can_be_started (lib : library)
    (ps : list Passenger.t) (rd : gmap string json) (new_id : string)
    (now : Z) (db db' : DB) (u : User) (di : nat) (drv : Driver.t) (km : Z)
    (kid : string) (t : Z) (dv : json) :
  create_manual_ride (str_of_exception lib) (real_to_text lib) ps rd new_id
    now db = Ok db' →
  driver_by_user_id (user_id_of u) db = Some (di, drv) →
  rd !! "driver_id" = Some dv →
  bound_text (real_to_text lib) dv = Ok (Some (Driver.id drv)) →
  kid ∉ KilometerEntry.id <$> km_entries db →
  sqlite_integer km →
  ∃ db'' pid,
    start_ride new_id km u kid t db' = Ok db'' ∧
    rides db''
    = rides db ++ [Ride.mk new_id pid (Some (Driver.id drv)) "in_progress"
                     (Some now) None (Some t) None None 0 0 None] ∧
    km_entries db''
    = km_entries db ++ [KilometerEntry.mk kid (Driver.id drv) km None
                          (Some new_id) "started"] ∧
    (length (assigned_query (Driver.id drv) db'')
     = length (assigned_query (Driver.id drv) db) + 1)%nat.
Proof.
  intros (pid & did & Hacc & ->)%create_manual_ride_Ok Hd Hrd Hdv Hkid Hkm.
  destruct Hacc as (pv & dv0 & av & bv & a & b & j & drv0 & _ & Hdid & _ & _
                    & _ & Bd & _ & _ & _ & _ & _ & Hfresh).
  rewrite Hrd in Hdid. injection Hdid as <-.
  rewrite Hdv in Bd. injection Bd as <-.
  set (new := Ride.mk new_id pid (Some (Driver.id drv)) "assigned" (Some now)
                None None None None 0 0 None).
  unfold start_ride.
  change (driver_by_user_id (user_id_of u) _)
    with (driver_by_user_id (user_id_of u) db). rewrite Hd.
  unfold ride_by_id. simpl.
  erewrite list_find_snoc_None; [|by apply list_find_fresh|done].
  simpl. rewrite ?decide_False by (intros []; done).
  rewrite commit_insert_fresh by done.
  eexists _, pid. split; [done|]. simpl.
  assert (alter (λ r, Ride.set_picked_up_at (Some t)
                        (Ride.set_status "in_progress" r))
            (length (rides db)) (rides db ++ [new])
          = rides db ++ [Ride.mk new_id pid (Some (Driver.id drv))
                           "in_progress" (Some now) None (Some t) None None
                           0 0 None]) as Halter.
  { rewrite <- (Nat.add_0_r (length (rides db))). by rewrite alter_app_r. }
  rewrite Halter. split; [done|]. split; [done|].
  unfold assigned_query. simpl. rewrite Halter, filter_app, length_app.
  rewrite filter_cons_True by (simpl; split; [done|member]). done.
Qed.

Lemma manual_ride_can_be_started_witness :
  ∃ db' db'',
    create_manual_ride (λ _, "") (λ _, "") [Passenger.mk "p1" "u5" 0]
      {[ "passenger_id" := JString "p1"; "driver_id" := JString "d1";
         "pickup_address" := JString "A";
         "dropoff_address" := JString "B" ]}
      "r9" 7 db_requested = Ok db' ∧
    start_ride "r9" 500 driver1 "k9" 8 db' = Ok db'' ∧
    Ride.status <$> rides db'' = ["requested"; "in_progress"] ∧
    KilometerEntry.start_km <$> km_entries db'' = [500].
Proof.
  set (lib := mkLibrary (λ _, "") (λ _, "")).
  assert (∃ db', create_manual_ride (str_of_exception lib)
            (real_to_text lib) [Passenger.mk "p1" "u5" 0]
            {[ "passenger_id" := JString "p1"; "driver_id" := JString "d1";
               "pickup_address" := JString "A";
               "dropoff_address" := JString "B" ]}
            "r9" 7 db_requested = Ok db') as [db' E].
  { eexists. vm_compute. reflexivity. }
  destruct (manual_ride_can_be_started lib _ _ _ _ _ _ driver1 0 _ 500 "k9"
              8 (JString "d1") E eq_refl)
    as (db'' & pid & E2 & Hr & Hk & _);
    [by vm_compute|by vm_compute|fresh_id|by vm_compute|].
  exists db', db''. split; [exact E|]. split; [exact E2|].
  by rewrite Hr, Hk.
Defined.

(** ** The availability flag, written and read *)

(** X17. [update_driver_status] and [get_driver] agree on who exists: for an
    unknown id both raise 404 "Driver not found"; for a known one the update
    commits, [get_driver] then returns the driver with the flag as given,
    [last_status_change] at the time of the call and every other column as
    before, and the rides, kilometer entries, attendance sessions and leave
    requests are untouched. *)
Theorem driver_status_read_back (db : DB) (did : string) (b : bool)
    (now : Z) :
  match get_driver did db with
  | Ok drv =>
      ∃ db',
        update_driver_status did b now db = Ok db' ∧
        get_driver did db' = Ok (Driver.set_is_online b now drv) ∧
        rides db' = rides db ∧ km_entries db' = km_entries db ∧
        attendance db' = attendance db ∧
        leave_requests db' = leave_requests db ∧
        length (drivers db') = length (drivers db)
  | Err e =>
      e = HTTPException 404 "Driver not found" ∧
      update_driver_status did b now db
      = Err (HTTPException 404 "Driver not found")
  end.
Proof.
  unfold get_driver at 1, update_driver_status.
  destruct (driver_by_id did db) as [[j drv]|] eqn:Hd; [|done].
  eexists. split; [done|]. simpl. split_and!; try done.
  - unfold get_driver, driver_by_id. simpl.
    by erewrite driver_by_id_alter.
  - by rewrite length_alter.
Qed.

(** ** Accounts *)

Lemma not_elem_of_find_None {A} (key : A → string) (i : string)
    (l : list A) :
  list_find (λ x, key x = i) l = None → i ∉ key <$> l.
Proof.
  intros Hn%list_find_None (x & -> & Hx)%list_elem_of_fmap.
  rewrite Forall_forall in Hn. by apply (Hn x Hx).
Qed.

Lemma NoDup_snoc_fresh {A} (l : list A) (x : A) :
  NoDup l → x ∉ l → NoDup (l ++ [x]).
Proof.
  intros Hl Hx. apply NoDup_app. split_and!; [done| |apply NoDup_singleton].
  intros y Hy ->%list_elem_of_singleton. done.
Qed.

Lemma create_user_Ok (ud : UserCreateAdmin) (new_id h : string) (now : Z)
    (s s' : Site) :
  create_user ud new_id h now s = Ok s' →
  (uc_email ud ∉ UserRow.email <$> users s) ∧
  (new_id ∉ UserRow.id <$> users s) ∧
  s' = mkSite (users s ++ [UserRow.mk new_id (uc_name ud) (uc_email ud)
                             (uc_phone ud) (UserRole_value (uc_role ud)) h
                             now true]) (core s).
Proof.
  unfold create_user, user_by_email. intros Hok.
  destruct (list_find _ _) as [[??]|] eqn:He; [done|].
  destruct (commit_insert _ _ _) as [us|] eqn:Hins; [|done].
  apply commit_insert_Ok in Hins as [-> ?]. simplify_eq.
  split_and!; try done. by apply not_elem_of_find_None.
Qed.

Lemma create_driver_Returns (fromiso : string → option Z)
    (dd : DriverCreateAdmin) (ui di h : string) (now now2 : Z) (s s' : Site) :
  create_driver fromiso dd ui di h now now2 s = Returns s' →
  (uc_email (dc_user dd) ∉ UserRow.email <$> users s) ∧
  (ui ∉ UserRow.id <$> users s) ∧
  is_Some (fromiso (dc_license_expiry dd)) ∧
  (di ∉ Driver.id <$> drivers (core s)) ∧
  (ui ∉ Driver.user_id <$> drivers (core s)) ∧
  s' = mkSite (users s ++ [UserRow.mk ui (uc_name (dc_user dd))
                             (uc_email (dc_user dd)) (uc_phone (dc_user dd))
                             "driver" h now true])
         (with_drivers (λ l, l ++ [Driver.mk di ui 0 false 0 now2]) (core s)).
Proof.
  unfold create_driver, user_by_email. intros Hok.
  destruct (list_find _ _) as [[??]|] eqn:He; [done|].
  destruct (commit_insert _ _ _) as [us|] eqn:Hins; [|done].
  apply commit_insert_Ok in Hins as [-> ?].
  destruct (fromiso _) as [t|] eqn:Hiso; [|done].
  case_decide as Hdup; [done|]. simplify_eq.
  split_and!; try done.
  - by apply not_elem_of_find_None.
  - intros ?. apply Hdup. by left.
  - intros ?. apply Hdup. by right.
Qed.

(** ** No row is lost *)

Lemma site_rows_kept_refl (s : Site) : site_rows_kept s s.
Proof. by repeat split. Qed.

Lemma site_rows_kept_trans (s1 s2 s3 : Site) :
  site_rows_kept s1 s2 → site_rows_kept s2 s3 → site_rows_kept s1 s3.
Proof.
  intros (U1 & D1 & R1 & K1 & A1 & L1) (U2 & D2 & R2 & K2 & A2 & L2).
  repeat split; by etrans.
Qed.

Lemma serve_s_rows_kept (fromiso : string → option Z) (lib : library)
    (s : Site) (rq : request_s) :
  site_rows_kept s (serve_s fromiso lib s rq).
Proof.
  destruct rq as [rq|ud i h now|dd ui di h now now2]; simpl.
  - destruct (serve_all_x_rows_kept lib (core s) [rq])
      as (E & R & K & A & L).
    change (serve_all_x lib (core s) [rq]) with (serve_x lib (core s) rq)
      in *.
    unfold site_rows_kept.
    change (core (mkSite (users s) (serve_x lib (core s) rq)))
      with (serve_x lib (core s) rq).
    split_and!; try done. by rewrite E.
  - destruct (create_user ud i h now s) as [s'|e] eqn:Hc;
      [|apply site_rows_kept_refl].
    apply create_user_Ok in Hc as (_ & _ & ->).
    repeat split; simpl; try reflexivity.
    rewrite fmap_app. by apply prefix_app_r.
  - destruct (create_driver fromiso dd ui di h now now2 s) as [s'| | |]
      eqn:Hc; try apply site_rows_kept_refl.
    apply create_driver_Returns in Hc as (_ & _ & _ & _ & _ & ->).
    repeat split; simpl; try reflexivity;
      rewrite fmap_app; by apply prefix_app_r.
Qed.

(** X2. None of the requests served removes a row or rewrites a primary
    key.  After any sequence of site requests ([create_user],
    [create_driver], [create_manual_ride] and the handlers of the five
    tables) the ids of the users, drivers, rides, kilometer entries,
    attendance sessions and leave requests of before are, in order, a prefix
    of those of after; and as long as no [create_user] or [create_driver] is
    among them, the drivers table carries the same ids as before. *)
Theorem no_request_removes_rows (fromiso : string → option Z)
    (lib : library) (s : Site) (rqs : list request_s) (rqx : list request_x) :
  site_rows_kept s (serve_all_s fromiso lib s rqs) ∧
  rows_kept (core s) (serve_all_x lib (core s) rqx) ∧
  core (serve_all_s fromiso lib s (OnCore <$> rqx))
  = serve_all_x lib (core s) rqx.
Proof.
  split_and!.
  - revert s. induction rqs as [|rq rqs IH]; intros s.
    + apply site_rows_kept_refl.
    + simpl. eapply site_rows_kept_trans; [|apply IH].
      apply serve_s_rows_kept.
  - apply serve_all_x_rows_kept.
  - revert s. induction rqx as [|rq rqx IH]; intros s; [done|].
    simpl. by rewrite IH.
Qed.

(** X18. No two users ever share an e-mail address: whatever sequence of
    requests is served, [create_user] and [create_driver] store a user only
    after finding no row with that address, and no other request served
    here writes the users table. *)
Theorem emails_stay_unique (fromiso : string → option Z)
    (lib : library) (s : Site) (rqs : list request_s) :
  emails_unique s → emails_unique (serve_all_s fromiso lib s rqs).
Proof.
  revert s. induction rqs as [|rq rqs IH]; intros s Hs; [done|].
  simpl. apply IH. destruct rq as [rq|ud i h now|dd ui di h now now2]; simpl.
  - done.
  - destruct (create_user ud i h now s) as [s'|e] eqn:Hc; [|done].
    apply create_user_Ok in Hc as (Hemail & _ & ->).
    unfold emails_unique. simpl. rewrite fmap_app.
    by apply NoDup_snoc_fresh.
  - destruct (create_driver fromiso dd ui di h now now2 s) as [s'| | |]
      eqn:Hc; try done.
    apply create_driver_Returns in Hc as (Hemail & _ & _ & _ & _ & ->).
    unfold emails_unique. simpl. rewrite fmap_app.
    by apply NoDup_snoc_fresh.
Qed.

Lemma emails_stay_unique_witness :
  UserRow.email
    <$> users
          (serve_all_s (λ _, Some 0) (mkLibrary (λ _, "") (λ _, "")) (mkSite [] db_startup)
             [CreateUser (mkUserCreateAdmin "Ann" "ann@x.org" "1"
                            UserRole.admin) "u10" "h" 1;
              CreateDriver (mkDriverCreateAdmin
                              (mkUserCreateAdmin "Bob" "ann@x.org" "2"
                                 UserRole.driver) "2030-01-01")
                "u11" "d11" "h" 2 3;
              CreateDriver (mkDriverCreateAdmin
                              (mkUserCreateAdmin "Bob" "bob@x.org" "2"
                                 UserRole.driver) "2030-01-01")
                "u11" "d11" "h" 4 5])
  = ["ann@x.org"; "bob@x.org"] ∧
  emails_unique
    (serve_all_s (λ _, Some 0) (mkLibrary (λ _, "") (λ _, "")) (mkSite [] db_startup)
       [CreateUser (mkUserCreateAdmin "Ann" "ann@x.org" "1"
                      UserRole.admin) "u10" "h" 1;
        CreateDriver (mkDriverCreateAdmin
                        (mkUserCreateAdmin "Bob" "ann@x.org" "2"
                           UserRole.driver) "2030-01-01")
          "u11" "d11" "h" 2 3;
        CreateDriver (mkDriverCreateAdmin
                        (mkUserCreateAdmin "Bob" "bob@x.org" "2"
                           UserRole.driver) "2030-01-01")
          "u11" "d11" "h" 4 5]).
Proof.
  split; [by vm_compute|].
  apply emails_stay_unique. unfold emails_unique. simpl. apply NoDup_nil_2.
Defined.

(** X19. A driver made by [create_driver] starts offline, with no rides
    counted and the odometer at 0, and is found under the new profile id and
    under the new user's id.  No ride can be assigned to the driver yet
    ([assign_ride_to_driver] raises 400 for every [requested] ride); once the
    driver's user has gone online through [update_my_status_body], the
    driver has exactly the one session just opened. *)
Theorem new_driver_starts_offline (fromiso : string → option Z)
    (dd : DriverCreateAdmin) (ui di h : string) (now now2 : Z) (s s' : Site)
    (cu : User) (aid : string) (t t' : Z) :
  create_driver fromiso dd ui di h now now2 s = Returns s' →
  user_id_of cu = ui →
  sessions_of_drivers (core s) →
  aid ∉ DriverAttendance.id <$> attendance (core s) →
  get_driver di (core s') = Ok (Driver.mk di ui 0 false 0 now2) ∧
  driver_by_user_id ui (core s')
  = Some (length (drivers (core s)), Driver.mk di ui 0 false 0 now2) ∧
  (∀ rid i ride tm,
     ride_by_id rid (core s') = Some (i, ride) →
     Ride.status ride = "requested" →
     assign_ride_to_driver rid di tm (core s')
     = Err (HTTPException 400 "Driver is not online")) ∧
  ∃ db'',
    update_my_status_body (Some true) cu aid t t' (core s') = Ok db'' ∧
    get_driver di db'' = Ok (Driver.mk di ui 0 true 0 t') ∧
    active_sessions di db''
    = [DriverAttendance.mk aid di (date_of t) t None None "active"].
Proof.
  intros (_ & _ & _ & Hdi & Hui & ->)%create_driver_Returns Hcu Hrefs Haid.
  set (new := Driver.mk di ui 0 false 0 now2). simpl.
  assert (driver_by_id di (with_drivers (λ l, l ++ [new]) (core s))
          = Some (length (drivers (core s)), new)) as Hby_id.
  { unfold driver_by_id. simpl.
    apply list_find_snoc_None; [|done]. by apply list_find_fresh. }
  assert (driver_by_user_id ui (with_drivers (λ l, l ++ [new]) (core s))
          = Some (length (drivers (core s)), new)) as Hby_user.
  { unfold driver_by_user_id. simpl.
    apply list_find_snoc_None; [|done]. by apply list_find_fresh. }
  split_and!.
  - unfold get_driver. by rewrite Hby_id.
  - done.
  - intros rid i ride tm Hr Hst. unfold assign_ride_to_driver.
    rewrite Hr. rewrite decide_False by (intros []; done).
    by rewrite Hby_id.
  - unfold update_my_status_body. rewrite Hcu, Hby_user. simpl.
    rewrite commit_insert_fresh by done.
    eexists. split; [done|].
    assert (alter (Driver.set_is_online true t') (length (drivers (core s)))
              (drivers (core s) ++ [new])
            = drivers (core s) ++ [Driver.mk di ui 0 true 0 t']) as Halter.
    { rewrite <- (Nat.add_0_r (length (drivers (core s)))).
      by rewrite alter_app_r. }
    split.
    + unfold get_driver, driver_by_id. simpl. rewrite Halter.
      erewrite list_find_snoc_None; [done|by apply list_find_fresh|done].
    + unfold active_sessions. simpl. rewrite filter_app.
      rewrite filter_cons_True by done.
      assert (filter (λ a, DriverAttendance.driver_id a = di
                           ∧ DriverAttendance.status a = "active")
                (attendance (core s)) = []) as ->; [|done].
      apply filter_nil_of_find_None, list_find_None.
      unfold sessions_of_drivers in Hrefs.
      eapply Forall_impl; [exact Hrefs|]. intros a Ha [Hd _].
      apply Hdi. by rewrite <- Hd.
Qed.

Lemma new_driver_starts_offline_witness :
  ∃ s' db'',
    create_driver (λ _, Some 0)
      (mkDriverCreateAdmin
         (mkUserCreateAdmin "Bob" "bob@x.org" "2" UserRole.driver)
         "2030-01-01")
      "u11" "d11" "h" 2 3 (mkSite [] db_requested) = Returns s' ∧
    Driver.is_online <$> drivers (core s') = [true; false] ∧
    assign_ride_to_driver "r1" "d11" 4 (core s')
    = Err (HTTPException 400 "Driver is not online") ∧
    update_my_status_body (Some true) (mkUser "u11" UserRole.driver) "a2" 5 6
      (core s') = Ok db'' ∧
    DriverAttendance.id <$> active_sessions "d11" db'' = ["a2"].
Proof.
  assert (∃ s', create_driver (λ _, Some 0)
            (mkDriverCreateAdmin
               (mkUserCreateAdmin "Bob" "bob@x.org" "2" UserRole.driver)
               "2030-01-01")
            "u11" "d11" "h" 2 3 (mkSite [] db_requested) = Returns s')
    as [s' E].
  { eexists. vm_compute. reflexivity. }
  destruct (new_driver_starts_offline _ _ _ _ _ _ _ _ s'
              (mkUser "u11" UserRole.driver) "a2" 5 6 E eq_refl)
    as (_ & _ & Hassign & db'' & E2 & _ & Hact).
  { by repeat constructor. }
  { fresh_id. }
  exists s', db''. split; [exact E|].
  assert (s' = mkSite
            [UserRow.mk "u11" "Bob" "bob@x.org" "2" "driver" "h" 2 true]
            (with_drivers (λ l, l ++ [Driver.mk "d11" "u11" 0 false 0 3])
               db_requested)) as Hs'.
  { vm_compute in E. injection E as <-. reflexivity. }
  split; [by rewrite Hs'|]. split.
  - eapply (Hassign "r1" 0%nat); rewrite Hs'; reflexivity.
  - split; [exact E2|]. by rewrite Hact.
Defined.

Lemma handle_sessions_of_drivers (rq : request) (db db' : DB) :
  sessions_of_drivers db → handle rq db = Ok db' → sessions_of_drivers db'.
Proof.
  intros Hrefs Hok.
  pose proof (handle_rows_kept rq db db' Hok) as [Hids _].
  unfold sessions_of_drivers in *. rewrite Hids. clear Hids. revert Hok.
  destruct rq; simpl;
    [unfold update_driver_status|unfold update_my_status
    |unfold update_my_status_body|unfold create_km_entry
    |unfold complete_km_entry|unfold create_leave_request
    |unfold review_leave_request|unfold create_ride
    |unfold update_ride_status|unfold assign_ride_to_driver
    |unfold start_ride|unfold complete_ride];
    intros Hok; open_handler; inserted; simpl; try done.
  - apply Forall_app. split; [done|]. repeat constructor. simpl.
    match goal with
    | H : driver_by_user_id _ _ = Some _ |- _ =>
        apply list_find_Some in H as (H & _ & _);
        apply list_elem_of_lookup_2 in H
    end.
    by apply list_elem_of_fmap_2.
  - apply Forall_alter; [done|]. by intros a _ Ha.
Qed.

Lemma serve_x_attendance_invariants (lib : library) (rq : request_x)
    (db : DB) :
  flag_only_s (OnCore rq) = false →
  sessions_match_flag db ∧ sessions_of_drivers db →
  sessions_match_flag (serve_x lib db rq)
  ∧ sessions_of_drivers (serve_x lib db rq).
Proof.
  intros Hrq [Hinv Hrefs]. unfold serve_x.
  destruct (handle_x lib rq db) as [db'|e] eqn:Hh; simpl; [|done].
  destruct rq as [rq|ps rd i now]; simpl in Hh, Hrq.
  - split; [by eapply handle_preserves|by eapply handle_sessions_of_drivers].
  - apply create_manual_ride_Ok in Hh
      as (pid & did & _ & ->).
    done.
Qed.

Lemma create_driver_attendance_invariants (fromiso : string → option Z)
    (dd : DriverCreateAdmin) (ui di h : string) (now now2 : Z) (s s' : Site) :
  create_driver fromiso dd ui di h now now2 s = Returns s' →
  sessions_match_flag (core s) ∧ sessions_of_drivers (core s) →
  sessions_match_flag (core s') ∧ sessions_of_drivers (core s').
Proof.
  intros (_ & _ & _ & Hdi & _ & ->)%create_driver_Returns
    [[Hnd Hall] Hrefs].
  unfold sessions_match_flag, sessions_of_drivers, active_sessions in *.
  simpl. rewrite fmap_app. split_and!.
  - by apply NoDup_snoc_fresh.
  - apply Forall_app. split; [done|]. repeat constructor. simpl.
    rewrite (filter_nil_of_find_None _ (attendance (core s))); [done|].
    apply list_find_None. eapply Forall_impl; [exact Hrefs|].
    intros a Ha [Hd _]. apply Hdi. by rewrite <- Hd.
  - eapply Forall_impl; [exact Hrefs|]. intros a Ha. simpl.
    apply elem_of_app. by left.
Qed.

(** X20. The attendance bookkeeping also holds while administrators create
    drivers and manual rides.  From a site where every driver has one active
    session when online and none when offline, and every session belongs to
    a driver, any sequence of site requests other than
    [update_driver_status] and [update_my_status] keeps both, so that every
    driver has at most one [active] session and is online exactly when such
    a session exists. *)
Theorem attendance_kept_on_site (fromiso : string → option Z)
    (lib : library) (s : Site) (rqs : list request_s) :
  sessions_match_flag (core s) → sessions_of_drivers (core s) →
  Forall (λ rq, flag_only_s rq = false) rqs →
  sessions_match_flag (core (serve_all_s fromiso lib s rqs)) ∧
  sessions_of_drivers (core (serve_all_s fromiso lib s rqs)) ∧
  at_most_one_active (core (serve_all_s fromiso lib s rqs)) ∧
  online_agrees (core (serve_all_s fromiso lib s rqs)).
Proof.
  intros Hinv Hrefs Hrqs.
  assert (sessions_match_flag (core (serve_all_s fromiso lib s rqs))
          ∧ sessions_of_drivers (core (serve_all_s fromiso lib s rqs)))
    as [H1 H2].
  { revert s Hinv Hrefs.
    induction Hrqs as [|rq rqs Hrq _ IH]; intros s Hinv Hrefs; [done|].
    simpl.
    assert (sessions_match_flag (core (serve_s fromiso lib s rq))
            ∧ sessions_of_drivers (core (serve_s fromiso lib s rq)))
      as [??]; [|by apply IH].
    destruct rq as [rq|ud i h now|dd ui di h now now2]; simpl.
    - by apply serve_x_attendance_invariants.
    - destruct (create_user ud i h now s) as [s'|e] eqn:Hc; [|done].
      by apply create_user_Ok in Hc as (_ & _ & ->).
    - destruct (create_driver fromiso dd ui di h now now2 s) as [s'| | |]
        eqn:Hc; try done.
      by eapply create_driver_attendance_invariants. }
  split_and!; try done.
  - by apply sessions_match_flag_at_most_one.
  - by apply sessions_match_flag_agrees.
Qed.

Lemma attendance_kept_on_site_witness :
  at_most_one_active
    (core
       (serve_all_s (λ _, Some 0) (mkLibrary (λ _, "") (λ _, "")) (mkSite [] db_startup)
          [OnCore (Core (UpdateMyStatusBody (Some true) driver1 "a1" 1 2));
           CreateDriver (mkDriverCreateAdmin
                           (mkUserCreateAdmin "Bob" "bob@x.org" "2"
                              UserRole.driver) "2030-01-01")
             "u11" "d11" "h" 2 3;
           OnCore (Core (UpdateMyStatusBody (Some true)
                           (mkUser "u11" UserRole.driver) "a2" 5 6));
           OnCore (Core (UpdateMyStatusBody (Some true)
                           (mkUser "u11" UserRole.driver) "a3" 7 8))])) ∧
  DriverAttendance.id
    <$> attendance
          (core
             (serve_all_s (λ _, Some 0) (mkLibrary (λ _, "") (λ _, "")) (mkSite [] db_startup)
                [OnCore (Core (UpdateMyStatusBody (Some true) driver1 "a1" 1
                                 2));
                 CreateDriver (mkDriverCreateAdmin
                                 (mkUserCreateAdmin "Bob" "bob@x.org" "2"
                                    UserRole.driver) "2030-01-01")
                   "u11" "d11" "h" 2 3;
                 OnCore (Core (UpdateMyStatusBody (Some true)
                                 (mkUser "u11" UserRole.driver) "a2" 5 6));
                 OnCore (Core (UpdateMyStatusBody (Some true)
                                 (mkUser "u11" UserRole.driver) "a3" 7 8))]))
  = ["a1"; "a2"].
Proof.
  split; [|by vm_compute].
  apply attendance_kept_on_site.
  - split; [apply NoDup_singleton|by repeat constructor].
  - constructor.
  - by repeat constructor.
Defined.
